(** * The Roblox follower scraper (src/scraper.py), embedded in Rocq

    The development follows the layers of [RobloxScraper]:
    - Python strings, integers and double-precision floats as the code
      uses them;
    - [_parse_number], the number normalisation;
    - the regular expressions of the extraction strategies, with a
      backtracking matcher that returns its matches in priority order;
    - the parsed document (BeautifulSoup) as the interface the code
      queries;
    - [_extract_username] and [_extract_followers];
    - the HTTP session, [_get_username_from_api],
      [_get_followers_from_api], [_scrape_user_profile] and
      [get_user_followers];
    - the routes of the web layer (src/app.py) that call it.

    Strings are byte strings and the character classes are those of
    ASCII.  Logging calls only write to the process log and are left
    out. *)

From Stdlib Require Import ZArith List String Ascii Bool Lia.
From Stdlib Require Import DecimalString DecimalPos Sorted.
Import ListNotations.
Local Open Scope string_scope.
Local Open Scope Z_scope.

(** ** Python exceptions and results *)

(** The exception classes that the handlers of the source tell apart.
    [Timeout] and [ConnectionError] are those of [requests.exceptions];
    [OtherException] stands for any other subclass of [Exception]. *)
Inductive exn : Type :=
| Timeout
| ConnectionError
| HTTPError (status : Z)
| ValueError
| AttributeError
| OverflowError
| OtherException.

Inductive outcome (A : Type) : Type :=
| Ok (a : A)
| Raise (e : exn).
Arguments Ok {A} a.
Arguments Raise {A} e.

(** ** Strings *)

Module Str.

Definition code (c : ascii) : nat := nat_of_ascii c.

Definition is_digit (c : ascii) : bool :=
  (48 <=? code c)%nat && (code c <=? 57)%nat.

Definition is_upper (c : ascii) : bool :=
  (65 <=? code c)%nat && (code c <=? 90)%nat.

Definition is_lower (c : ascii) : bool :=
  (97 <=? code c)%nat && (code c <=? 122)%nat.

(** [\w] on ASCII: letters, digits and the underscore. *)
Definition is_word (c : ascii) : bool :=
  is_digit c || is_upper c || is_lower c || (code c =? 95)%nat.

(** [str.isspace] on ASCII: tab, line feed, vertical tab, form feed,
    carriage return, the four separators 0x1c..0x1f and the space. *)
Definition is_space (c : ascii) : bool :=
  ((9 <=? code c)%nat && (code c <=? 13)%nat)
  || ((28 <=? code c)%nat && (code c <=? 32)%nat).

Definition lower_char (c : ascii) : ascii :=
  if is_upper c then ascii_of_nat (code c + 32) else c.

(** [s.lower()] *)
Fixpoint lower (s : string) : string :=
  match s with
  | EmptyString => EmptyString
  | String c s' => String (lower_char c) (lower s')
  end.

Fixpoint lstrip (s : string) : string :=
  match s with
  | EmptyString => EmptyString
  | String c s' => if is_space c then lstrip s' else s
  end.

Fixpoint rstrip (s : string) : string :=
  match s with
  | EmptyString => EmptyString
  | String c s' =>
      match rstrip s' with
      | EmptyString => if is_space c then EmptyString else String c EmptyString
      | t => String c t
      end
  end.

(** [s.strip()] *)
Definition strip (s : string) : string := rstrip (lstrip s).

(** [len(s)] *)
Definition len (s : string) : Z := Z.of_nat (String.length s).

(** truth value of a string: non-empty *)
Definition nonempty (s : string) : bool :=
  match s with EmptyString => false | _ => true end.

(** [sub in s] *)
Fixpoint contains (sub s : string) : bool :=
  if String.prefix sub s then true
  else match s with
       | EmptyString => false
       | String _ s' => contains sub s'
       end.

Fixpoint drop (n : nat) (s : string) : string :=
  match n, s with
  | O, _ => s
  | S _, EmptyString => EmptyString
  | S n', String _ s' => drop n' s'
  end.

Fixpoint take (n : nat) (s : string) : string :=
  match n, s with
  | O, _ => EmptyString
  | S _, EmptyString => EmptyString
  | S n', String c s' => String c (take n' s')
  end.

(** [s.replace(old, new)] for a non-empty [old]: occurrences are
    replaced from the left and do not overlap.  [fuel] bounds the scan
    by the length of [s]. *)
Fixpoint replace_fuel (fuel : nat) (old new s : string) : string :=
  match fuel with
  | O => s
  | S fuel' =>
      match s with
      | EmptyString => EmptyString
      | String c s' =>
          if String.prefix old s
          then new ++ replace_fuel fuel' old new (drop (String.length old) s)
          else String c (replace_fuel fuel' old new s')
      end
  end.

Definition replace (old new s : string) : string :=
  replace_fuel (String.length s) old new s.

(** [s.split(sep)[0]]: the text before the first occurrence of [sep],
    all of [s] when there is none. *)
Fixpoint split_head (sep s : string) : string :=
  if String.prefix sep s then EmptyString
  else match s with
       | EmptyString => EmptyString
       | String c s' => String c (split_head sep s')
       end.

(** [s.endswith(c)] for a one-character suffix *)
Fixpoint endswith_char (c : ascii) (s : string) : bool :=
  match s with
  | EmptyString => false
  | String d EmptyString => Ascii.eqb c d
  | String _ s' => endswith_char c s'
  end.

(** [s[:-1]] *)
Fixpoint drop_last (s : string) : string :=
  match s with
  | EmptyString => EmptyString
  | String _ EmptyString => EmptyString
  | String c s' => String c (drop_last s')
  end.

Fixpoint filter (p : ascii -> bool) (s : string) : string :=
  match s with
  | EmptyString => EmptyString
  | String c s' => if p c then String c (filter p s') else filter p s'
  end.

Fixpoint forallb (p : ascii -> bool) (s : string) : bool :=
  match s with
  | EmptyString => true
  | String c s' => p c && forallb p s'
  end.

Fixpoint existsb (p : ascii -> bool) (s : string) : bool :=
  match s with
  | EmptyString => false
  | String c s' => p c || existsb p s'
  end.

(** membership of a character in a set written as a string, [c in "Ff"] *)
Definition one_of (set : string) (c : ascii) : bool :=
  existsb (Ascii.eqb c) set.

Fixpoint repeat (c : ascii) (n : nat) : string :=
  match n with
  | O => EmptyString
  | S n' => String c (repeat c n')
  end.

(** the double quote character *)
Definition dquote : ascii := ascii_of_nat 34.

(** [s] between double quotes *)
Definition quoted (s : string) : string :=
  String dquote (s ++ String dquote EmptyString).

End Str.

(** ** Integers and floats *)

Module Num.

(** [str(n)] for an integer *)
Definition str_of_int (n : Z) : string :=
  NilZero.string_of_int (Z.to_int n).

Definition digit_value (c : ascii) : Z := Z.of_nat (Str.code c) - 48.

(** value of a string of decimal digits, most significant first *)
Fixpoint digits_value (acc : Z) (s : string) : Z :=
  match s with
  | EmptyString => acc
  | String c s' => digits_value (10 * acc + digit_value c) s'
  end.

(** [int(s)] on the strings the source passes to it: a non-empty string
    of decimal digits converts, the empty string raises [ValueError].
    Python's [int] also accepts a sign, surrounding blanks and
    underscores; no call site of the source can pass them
    (see [parse_number_residue] and [follower_match_digits]), and the
    model raises [ValueError] there.  The interpreter's optional limit
    on the number of digits is not modelled. *)
Definition py_int (s : string) : outcome Z :=
  if Str.nonempty s && Str.forallb Str.is_digit s
  then Ok (digits_value 0 s)
  else Raise ValueError.

(** A double: a finite value [m * 2^e], an infinity or a NaN.  The sign
    of zero is not kept. *)
Inductive float64 : Type :=
| FFinite (m e : Z)
| FInf (neg : bool)
| FNaN.

(** [n / d] rounded to the nearest integer, ties to even
    ([0 <= n], [0 < d]) *)
Definition round_half_even (n d : Z) : Z :=
  let q := n / d in
  let r := n mod d in
  match (2 * r ?= d) with
  | Lt => q
  | Gt => q + 1
  | Eq => if Z.even q then q else q + 1
  end.

(** [n / d < 2^k] for [0 < n], [0 < d] *)
Definition below_pow2 (n d k : Z) : bool :=
  if 0 <=? k then n <? d * 2 ^ k else n * 2 ^ (- k) <? d.

(** exponent of the last place of the double nearest to [n / d]
    ([0 < n], [0 < d]): 52 places below the leading bit, and never below
    the subnormal exponent -1074 *)
Definition ulp_exponent (n d : Z) : Z :=
  let k := Z.log2 n - Z.log2 d in
  let k' := if below_pow2 n d k then k - 1 else k in
  Z.max (k' - 52) (-1074).

(** the double nearest to the rational [n / d] ([0 <= n], [0 < d]),
    round-to-nearest-even, overflowing to infinity from [2^1024] *)
Definition round_to_double (n d : Z) : float64 :=
  if n =? 0 then FFinite 0 0
  else
    let e := ulp_exponent n d in
    let m := if 0 <=? e then round_half_even n (d * 2 ^ e)
             else round_half_even (n * 2 ^ (- e)) d in
    if (0 <=? e) && (2 ^ 1024 <=? m * 2 ^ e) then FInf false
    else FFinite m e.

Definition float_neg (f : float64) : float64 :=
  match f with
  | FFinite m e => FFinite (- m) e
  | FInf neg => FInf (negb neg)
  | FNaN => FNaN
  end.

(** the double nearest to [m * 2^e] *)
Definition double_of_scaled (m e : Z) : float64 :=
  let a := Z.abs m in
  let r := if 0 <=? e then round_to_double (a * 2 ^ e) 1
           else round_to_double a (2 ^ (- e)) in
  if m <? 0 then float_neg r else r.

(** [float(n)] for an integer *)
Definition float_of_int (n : Z) : float64 := double_of_scaled n 0.

(** [a * b] on doubles *)
Definition float_mul (a b : float64) : float64 :=
  match a, b with
  | FNaN, _ | _, FNaN => FNaN
  | FFinite m1 e1, FFinite m2 e2 => double_of_scaled (m1 * m2) (e1 + e2)
  | FInf n, FFinite m _ | FFinite m _, FInf n =>
      if m =? 0 then FNaN else FInf (xorb n (m <? 0))
  | FInf n1, FInf n2 => FInf (xorb n1 n2)
  end.

(** [int(f)]: truncation towards zero; an infinity raises
    [OverflowError] and a NaN raises [ValueError] *)
Definition int_of_float (f : float64) : outcome Z :=
  match f with
  | FFinite m e =>
      Ok (if 0 <=? e then m * 2 ^ e else Z.quot m (2 ^ (- e)))
  | FInf _ => Raise OverflowError
  | FNaN => Raise ValueError
  end.

Definition is_dot (c : ascii) : bool := Ascii.eqb c "."%char.

(** the part of [s] before its first dot *)
Fixpoint before_dot (s : string) : string :=
  match s with
  | EmptyString => EmptyString
  | String c s' => if is_dot c then EmptyString else String c (before_dot s')
  end.

(** the part of [s] after its first dot *)
Fixpoint after_dot (s : string) : string :=
  match s with
  | EmptyString => EmptyString
  | String c s' => if is_dot c then s' else after_dot s'
  end.

(** [float(s)] on the strings the source passes to it, which hold only
    digits and dots and at least one dot: digits, one dot, digits, with
    a digit on one side at least; anything else raises [ValueError].
    The value is the correctly rounded double of the decimal. *)
Definition py_float (s : string) : outcome float64 :=
  let ip := before_dot s in
  let fp := after_dot s in
  if Str.forallb Str.is_digit ip && Str.forallb Str.is_digit fp
     && Str.existsb is_dot s && Str.nonempty (ip ++ fp)
  then Ok (round_to_double (digits_value 0 (ip ++ fp))
                           (10 ^ Z.of_nat (String.length fp)))
  else Raise ValueError.

(** a double that is not negative / that is finite and positive *)
Definition nonneg_float (f : float64) : Prop :=
  match f with
  | FFinite m _ => 0 <= m
  | FInf neg => neg = false
  | FNaN => False
  end.

Definition pos_float (f : float64) : Prop :=
  match f with
  | FFinite m _ => 0 < m
  | _ => False
  end.

End Num.

(** ** Number normalisation *)

(** [RobloxScraper._parse_number] (lines 396-421).  Its handler catches
    [ValueError] and [AttributeError] only. *)
Definition _parse_number (text : string) : outcome Z :=
  let text := Str.lower (Str.strip text) in
  let '(multiplier, text) :=
    if Str.endswith_char "k" text then (1000, Str.drop_last text)
    else if Str.endswith_char "m" text then (1000000, Str.drop_last text)
    else if Str.endswith_char "b" text then (1000000000, Str.drop_last text)
    else (1, text) in
  let number_str :=
    Str.filter (fun c => Str.is_digit c || Num.is_dot c) text in
  let body :=
    if Str.existsb Num.is_dot number_str then
      match Num.py_float number_str with
      | Ok f => Num.int_of_float (Num.float_mul f (Num.float_of_int multiplier))
      | Raise e => Raise e
      end
    else
      match Num.py_int number_str with
      | Ok n => Ok (n * multiplier)
      | Raise e => Raise e
      end in
  match body with
  | Raise ValueError | Raise AttributeError => Ok 0
  | r => r
  end.

(** ** Regular expressions

    The patterns of the source, as syntax trees, and a matcher with the
    semantics of Python's [re]: quantifiers are greedy, alternatives are
    tried from the left, and the first way to match wins.  The matcher
    returns every way to match at a position, in the order in which a
    backtracking search finds them. *)

Module Re.

Inductive regex : Type :=
| Eps
| Chr (c : ascii)
| Cls (p : ascii -> bool)
| Seq (r1 r2 : regex)
| Alt (r1 r2 : regex)
| Star (r : regex)
| Group (r : regex)
| WordB
| NoCase (r : regex).

(** [r+], [r?], [r{3}] and [r{1,3}] *)
Definition Plus (r : regex) : regex := Seq r (Star r).
Definition Opt (r : regex) : regex := Alt r Eps.
Definition Rep3 (r : regex) : regex := Seq r (Seq r r).
Definition Rep1to3 (r : regex) : regex := Seq r (Opt (Seq r (Opt r))).

(** a literal text *)
Fixpoint Lit (s : string) : regex :=
  match s with
  | EmptyString => Eps
  | String c s' => Seq (Chr c) (Lit s')
  end.

Fixpoint seqs (rs : list regex) : regex :=
  match rs with
  | [] => Eps
  | [r] => r
  | r :: rs' => Seq r (seqs rs')
  end.

(** [\d], [\s] and [[^\d]] *)
Definition digit : regex := Cls Str.is_digit.
Definition space : regex := Cls Str.is_space.
Definition non_digit : regex := Cls (fun c => negb (Str.is_digit c)).

(** A position in the subject: the character before it (for [\b]), the
    text after it, and the text of group 1 when it has matched. *)
Record mstate : Type := {
  prev : option ascii;
  rest : string;
  cap : option string
}.

Definition word_before (st : mstate) : bool :=
  match prev st with Some c => Str.is_word c | None => false end.

Definition word_after (st : mstate) : bool :=
  match rest st with String c _ => Str.is_word c | EmptyString => false end.

Definition eat (p : ascii -> bool) (st : mstate) : list mstate :=
  match rest st with
  | String c s' =>
      if p c then [ {| prev := Some c; rest := s'; cap := cap st |} ] else []
  | EmptyString => []
  end.

Definition shorter (a b : mstate) : bool :=
  (String.length (rest a) <? String.length (rest b))%nat.

(** greedy repetition: one more round of [step] where it consumes
    something, before the exit *)
Fixpoint star_loop (step : mstate -> list mstate) (fuel : nat) (st : mstate)
  : list mstate :=
  match fuel with
  | O => [st]
  | S fuel' =>
      flat_map (fun st' => if shorter st' st then star_loop step fuel' st'
                           else [])
               (step st) ++ [st]
  end.

(** the text between two positions of one scan *)
Definition consumed (from to : mstate) : string :=
  Str.take (String.length (rest from) - String.length (rest to)) (rest from).

Fixpoint run (r : regex) (ci : bool) (st : mstate) : list mstate :=
  match r with
  | Eps => [st]
  | Chr c =>
      eat (fun d => if ci then Ascii.eqb (Str.lower_char d) (Str.lower_char c)
                    else Ascii.eqb d c) st
  | Cls p => eat p st
  | Seq r1 r2 => flat_map (run r2 ci) (run r1 ci st)
  | Alt r1 r2 => run r1 ci st ++ run r2 ci st
  | Star r' => star_loop (run r' ci) (String.length (rest st)) st
  | Group r' =>
      map (fun st' => {| prev := prev st'; rest := rest st';
                         cap := Some (consumed st st') |})
          (run r' ci st)
  | WordB => if xorb (word_before st) (word_after st) then [st] else []
  | NoCase r' => run r' true st
  end.

(** the first match at a position *)
Definition match_at (r : regex) (p : option ascii) (s : string)
  : option mstate :=
  hd_error (run r false {| prev := p; rest := s; cap := None |}).

Definition group1 (st : mstate) : string :=
  match cap st with Some g => g | None => EmptyString end.

(** [re.findall(r, s)] for a pattern with one group: the text of the
    group for each match, scanning from the left; matches do not
    overlap. *)
Fixpoint findall_from (r : regex) (fuel : nat) (p : option ascii) (s : string)
  : list string :=
  match fuel with
  | O => []
  | S fuel' =>
      let skip :=
        match s with
        | EmptyString => []
        | String c s' => findall_from r fuel' (Some c) s'
        end in
      match match_at r p s with
      | None => skip
      | Some st =>
          if (String.length (rest st) <? String.length s)%nat
          then group1 st :: findall_from r fuel' (prev st) (rest st)
          else group1 st :: skip
      end
  end.

Definition findall (r : regex) (s : string) : list string :=
  findall_from r (S (String.length s)) None s.

(** [re.search(r, s)] as a truth value *)
Fixpoint search_from (r : regex) (p : option ascii) (s : string) : bool :=
  match match_at r p s with
  | Some _ => true
  | None =>
      match s with
      | EmptyString => false
      | String c s' => search_from r (Some c) s'
      end
  end.

Definition search (r : regex) (s : string) : bool := search_from r None s.

(** [\d+(?:,\d+)*] *)
Definition grouped_number : regex :=
  Seq (Plus digit) (Star (Seq (Chr ",") (Plus digit))).

(** [[Ff]ollowers?] *)
Definition followers_word : regex :=
  seqs [Cls (Str.one_of "Ff"); Lit "ollower"; Opt (Chr "s")].

(** [(?i:followers?|following)] *)
Definition follow_word_nocase : regex :=
  NoCase (Alt (Seq (Lit "follower") (Opt (Chr "s"))) (Lit "following")).

(** [(\d+(?:,\d+)*|\d+(?:\.\d+)?[kmb]?)] *)
Definition context_number : regex :=
  Group (Alt grouped_number
             (seqs [Plus digit; Opt (Seq (Chr ".") (Plus digit));
                    Opt (Cls (Str.one_of "kmb"))])).

Definition quote_char : regex :=
  Cls (fun c => Ascii.eqb c Str.dquote || Ascii.eqb c "'").

(** the closing double quote of a key, a colon, blanks and the digits
    of group 1 *)
Definition json_value_tail : regex :=
  seqs [Chr Str.dquote; Chr ":"; Star space; Group (Plus digit)].

(** a quote of either kind, a colon, blanks and the digits of group 1 *)
Definition js_value_tail : regex :=
  seqs [quote_char; Chr ":"; Star space; Group (Plus digit)].

(** [follower_patterns] (lines 299-306) *)
Definition follower_patterns : list regex :=
  [ seqs [Chr Str.dquote; Cls (Str.one_of "Ff"); Lit "ollowersCount";
          json_value_tail];
    seqs [Chr Str.dquote; Cls (Str.one_of "Ff"); Lit "ollowers";
          json_value_tail];
    seqs [Chr Str.dquote; Cls (Str.one_of "Ff"); Lit "ollowerCount";
          json_value_tail];
    seqs [Lit "followersCount"; js_value_tail];
    seqs [Lit "followers"; js_value_tail];
    seqs [Lit "FollowersCount"; js_value_tail] ].

(** [text_patterns] (lines 338-344) *)
Definition text_patterns : list regex :=
  [ seqs [Group grouped_number; Star space; followers_word];
    seqs [followers_word; Chr ":"; Star space; Group grouped_number];
    seqs [Group grouped_number; Star space; Lit "people"; Plus space;
          Lit "follow"];
    seqs [Group grouped_number; Star space; Cls (Str.one_of "Ff");
          Lit "ollowing"; Plus space; Lit "you"];
    seqs [Group (seqs [Plus digit; Opt (Seq (Chr ".") (Star digit));
                       Opt (Cls (Str.one_of "KkMmBb"))]);
          Star space; followers_word] ].

(** [follower_context_patterns] (lines 355-358) *)
Definition follower_context_patterns : list regex :=
  [ seqs [follow_word_nocase; Star non_digit; context_number];
    seqs [context_number; Star non_digit; follow_word_nocase] ].

(** [number_patterns] (lines 371-374) *)
Definition number_patterns : list regex :=
  [ seqs [WordB;
          Group (Seq (Rep1to3 digit) (Plus (Seq (Chr ",") (Rep3 digit))));
          WordB];
    seqs [WordB;
          Group (seqs [Plus digit; Opt (Seq (Chr ".") (Plus digit));
                       Cls (Str.one_of "KkMmBb")]);
          WordB] ].

(** every way to match [r] ends in a position with property [Q] *)
Definition ends_in (Q : mstate -> Prop) (r : regex) : Prop :=
  forall ci st st', In st' (run r ci st) -> Q st'.

(** a non-empty string of digits *)
Definition digit_string (g : string) : Prop :=
  Str.nonempty g = true /\ Str.forallb Str.is_digit g = true.

End Re.

(** ** Effects

    A call of the scraper issues requests, sleeps and queries the parsed
    document.  A computation takes the trace of what happened so far and
    gives a value or a raised exception, with the extended trace. *)

Inductive query : Type :=
| QFind (name : string)
| QFindAttr (name key val : string)
| QFindAll (name : string)
| QSelectOne (selector : string)
| QSelect (selector : string)
| QGetText.

Inductive event : Type :=
| EGet (url : string)
| ESleep (seconds : Z)
| EQuery (q : query).

Definition trace : Type := list event.

Definition M (A : Type) : Type := trace -> outcome A * trace.

Definition ret {A} (a : A) : M A := fun tr => (Ok a, tr).

Definition bind {A B} (m : M A) (k : A -> M B) : M B :=
  fun tr =>
    match m tr with
    | (Ok a, tr') => k a tr'
    | (Raise e, tr') => (Raise e, tr')
    end.

Definition raise {A} (e : exn) : M A := fun tr => (Raise e, tr).

Definition lift {A} (o : outcome A) : M A := fun tr => (o, tr).

Definition emit (ev : event) : M unit := fun tr => (Ok tt, (tr ++ [ev])%list).

(** [try: m except ...: handler] *)
Definition try_except {A} (m : M A) (handler : exn -> M A) : M A :=
  fun tr =>
    match m tr with
    | (Ok a, tr') => (Ok a, tr')
    | (Raise e, tr') => handler e tr'
    end.

Declare Scope py_scope.
Delimit Scope py_scope with py.
Notation "x <- m ;; k" := (bind m (fun x => k))
  (at level 61, m at next level, right associativity) : py_scope.
Notation "m ;; k" := (bind m (fun _ => k))
  (at level 61, right associativity) : py_scope.
Local Open Scope py_scope.

(** The body of a Python function is a sequence of statements, any of
    which may [return]: a statement either falls through to the next
    one or returns a value. *)
Inductive flow (R : Type) : Type :=
| Next
| Return (r : R).
Arguments Next {R}.
Arguments Return {R} r.

(** statement sequencing *)
Definition and_then {R} (s1 s2 : M (flow R)) : M (flow R) :=
  f <- s1 ;;
  match f with
  | Return r => ret (Return r)
  | Next => s2
  end.
Notation "s1 ;;; s2" := (and_then s1 s2)
  (at level 62, right associativity) : py_scope.

(** [for x in xs: body] *)
Fixpoint for_each {X R} (xs : list X) (body : X -> M (flow R)) : M (flow R) :=
  match xs with
  | [] => ret Next
  | x :: xs' => body x ;;; for_each xs' body
  end.

(** the end of a function body: the value of its last [return] *)
Definition or_return {R} (s : M (flow R)) (last : R) : M R :=
  f <- s ;;
  match f with
  | Return r => ret r
  | Next => ret last
  end.

(** [try: s except: pass] and [try: s except: continue] *)
Definition swallow {R} (s : M (flow R)) : M (flow R) :=
  try_except s (fun _ => ret Next).

(** ** The parsed document

    BeautifulSoup is a library: the document is what the code can ask
    of it.  A tag gives its text ([get_text()]), its [string] and its
    attributes; the document answers [find], [find_all], [select_one],
    [select] and [get_text].  A tag is always true as a condition. *)

Record Tag : Type := {
  tag_get_text : string;
  tag_string : option string;
  tag_attrs : list (string * string)
}.

Record Soup : Type := {
  soup_find : string -> option Tag;
  soup_find_attr : string -> string -> string -> option Tag;
  soup_find_all : string -> list Tag;
  soup_select_one : string -> option Tag;
  soup_select : string -> list Tag;
  soup_get_text : string
}.

(** [tag.get(key, default)] *)
Fixpoint tag_get (attrs : list (string * string)) (key default : string)
  : string :=
  match attrs with
  | [] => default
  | (k, v) :: attrs' => if String.eqb k key then v else tag_get attrs' key default
  end.

Section Extraction.

Variable soup : Soup.

Definition find (name : string) : M (option Tag) :=
  emit (EQuery (QFind name)) ;; ret (soup_find soup name).

Definition find_attr (name key val : string) : M (option Tag) :=
  emit (EQuery (QFindAttr name key val)) ;;
  ret (soup_find_attr soup name key val).

Definition find_all (name : string) : M (list Tag) :=
  emit (EQuery (QFindAll name)) ;; ret (soup_find_all soup name).

Definition select_one (selector : string) : M (option Tag) :=
  emit (EQuery (QSelectOne selector)) ;; ret (soup_select_one soup selector).

Definition select (selector : string) : M (list Tag) :=
  emit (EQuery (QSelect selector)) ;; ret (soup_select soup selector).

Definition get_text : M string :=
  emit (EQuery QGetText) ;; ret (soup_get_text soup).

(** [username and len(username) < 50] *)
Definition usable (username : string) : bool :=
  Str.nonempty username && (Str.len username <? 50).

(** *** [_extract_username] (lines 212-283) *)

(** Strategy 1, lines 216-223 *)
Definition username_from_title : M (flow string) :=
  title <- find "title" ;;
  match title with
  | Some title =>
      let title_text := Str.strip (tag_get_text title) in
      if Str.contains " - Roblox" title_text then
        let username := Str.strip (Str.replace " - Roblox" "" title_text) in
        if usable username then ret (Return username) else ret Next
      else ret Next
  | None => ret Next
  end.

(** Strategy 2, lines 226-235 *)
Definition username_from_description : M (flow string) :=
  swallow (
    meta_desc <- find_attr "meta" "name" "description" ;;
    match meta_desc with
    | Some meta_desc =>
        let content := tag_get (tag_attrs meta_desc) "content" "" in
        if Str.nonempty content
           && Str.contains " is one of the millions" content then
          let username :=
            Str.strip (Str.split_head " is one of the millions" content) in
          if usable username then ret (Return username) else ret Next
        else ret Next
    | None => ret Next
    end).

(** Strategy 3, lines 238-247 *)
Definition username_from_og_title : M (flow string) :=
  swallow (
    og_title <- find_attr "meta" "property" "og:title" ;;
    match og_title with
    | Some og_title =>
        let content := tag_get (tag_attrs og_title) "content" "" in
        if Str.nonempty content && Str.contains "'s Profile" content then
          let username := Str.strip (Str.replace "'s Profile" "" content) in
          if usable username then ret (Return username) else ret Next
        else ret Next
    | None => ret Next
    end).

(** the selector [h1[data-testid=...]], whose value is quoted *)
Definition display_name_selector : string :=
  "h1[data-testid=" ++ Str.quoted "profile-display-name" ++ "]".

(** [selectors], lines 250-258 *)
Definition selectors : list string :=
  [ display_name_selector;
    ".profile-display-name";
    ".profile-name h1";
    "h1.profile-name";
    ".header-title h1";
    ".profile-header h1";
    ".profile-card h1" ].

(** Strategy 4, lines 260-268 *)
Definition username_from_selectors : M (flow string) :=
  for_each selectors (fun selector =>
    swallow (
      element <- select_one selector ;;
      match element with
      | Some element =>
          let username := Str.strip (tag_get_text element) in
          if usable username then ret (Return username) else ret Next
      | None => ret Next
      end)).

(** [any(word in text.lower() for word in [...])], line 275 *)
Definition has_stop_word (text : string) : bool :=
  List.existsb (fun word => Str.contains word (Str.lower text))
               ["roblox"; "profile"; "error"; "not found"].

(** Strategy 5, lines 271-278 *)
Definition username_from_headings : M (flow string) :=
  swallow (
    h1_elements <- find_all "h1" ;;
    for_each h1_elements (fun h1 =>
      let text := Str.strip (tag_get_text h1) in
      if usable text && negb (has_stop_word text)
      then ret (Return text) else ret Next)).

Definition _extract_username : M string :=
  try_except
    (or_return
       (username_from_title ;;;
        username_from_description ;;;
        username_from_og_title ;;;
        username_from_selectors ;;;
        username_from_headings)
       "Unknown")
    (fun _ => ret "Unknown").

End Extraction.

(** the end of a function body whose last statement is [return None] *)
Definition or_none {R} (s : M (flow R)) : M (option R) :=
  f <- s ;;
  match f with
  | Return r => ret (Some r)
  | Next => ret None
  end.

(** a loop that builds up a value *)
Fixpoint fold_each {X A} (xs : list X) (acc : A) (body : A -> X -> M A)
  : M A :=
  match xs with
  | [] => ret acc
  | x :: xs' => acc' <- body acc x ;; fold_each xs' acc' body
  end.

(** [l.sort(reverse=True)] on integers *)
Fixpoint insert_desc (x : Z) (l : list Z) : list Z :=
  match l with
  | [] => [x]
  | y :: l' => if y <=? x then x :: l else y :: insert_desc x l'
  end.

Fixpoint sort_desc (l : list Z) : list Z :=
  match l with
  | [] => []
  | x :: l' => insert_desc x (sort_desc l')
  end.

Section Followers.

Variable soup : Soup.

(** *** [_extract_followers] (lines 285-394) *)

(** lines 291-295: the [string] of the script when it is true, else its
    text when that is true *)
Definition script_content (script : Tag) : option string :=
  match tag_string script with
  | Some s =>
      if Str.nonempty s then Some s
      else if Str.nonempty (tag_get_text script)
           then Some (tag_get_text script) else None
  | None =>
      if Str.nonempty (tag_get_text script)
      then Some (tag_get_text script) else None
  end.

(** lines 308-311: the patterns in turn on one script *)
Definition followers_in_script (script_content : string) : M (flow Z) :=
  for_each Re.follower_patterns (fun pattern =>
    match Re.findall pattern script_content with
    | first :: _ => n <- lift (Num.py_int first) ;; ret (Return n)
    | [] => ret Next
    end).

(** Strategy 1, lines 289-311 *)
Definition followers_from_scripts : M (flow Z) :=
  script_tags <- find_all soup "script" ;;
  for_each script_tags (fun script =>
    match script_content script with
    | Some content => followers_in_script content
    | None => ret Next
    end).

Definition attr_selector (attr op val : string) : string :=
  "[" ++ attr ++ op ++ Str.quoted val ++ "]".

(** [follower_selectors], lines 314-325 *)
Definition follower_selectors : list string :=
  [ attr_selector "data-testid" "=" "followers-count";
    attr_selector "data-testid" "=" "follower-count";
    ".followers-count";
    ".follower-count";
    ".profile-stats-followers";
    ".followers .stat-value";
    ".stat-followers .stat-value";
    ".profile-stat-followers";
    attr_selector "class" "*=" "follower" ++ " .text-label";
    attr_selector "class" "*=" "follower" ++ " .font-header-2" ].

(** Strategy 2, lines 327-334 *)
Definition followers_from_selectors : M (flow Z) :=
  for_each follower_selectors (fun selector =>
    elements <- select soup selector ;;
    for_each elements (fun element =>
      let text := Str.strip (tag_get_text element) in
      if Str.nonempty text && Re.search Re.digit text then
        follower_count <- lift (_parse_number text) ;;
        if 0 <=? follower_count then ret (Return follower_count)
        else ret Next
      else ret Next)).

(** lines 349-352 and 363-366: the first match that normalises to a
    non-negative count *)
Definition first_count (matches : list string) : M (flow Z) :=
  for_each matches (fun m =>
    follower_count <- lift (_parse_number m) ;;
    if 0 <=? follower_count then ret (Return follower_count) else ret Next).

(** Strategy 3, lines 346-352 *)
Definition followers_from_text (page_text : string) : M (flow Z) :=
  for_each Re.text_patterns (fun pattern =>
    first_count (Re.findall pattern page_text)).

(** Strategy 4, lines 360-366 *)
Definition followers_from_context (page_text : string) : M (flow Z) :=
  for_each Re.follower_context_patterns (fun pattern =>
    first_count (Re.findall pattern page_text)).

(** line 370 *)
Definition looks_like_profile (page_text : string) : bool :=
  Str.contains "profile" (Str.lower page_text)
  && Str.contains "roblox" (Str.lower page_text).

(** line 381 *)
Definition reasonable (count : Z) : bool :=
  (0 <=? count) && (count <=? 100000000).

(** lines 376-382 *)
Definition potential_followers (page_text : string) : M (list Z) :=
  fold_each Re.number_patterns [] (fun acc pattern =>
    fold_each (Re.findall pattern page_text) acc (fun acc m =>
      count <- lift (_parse_number m) ;;
      if reasonable count then ret (acc ++ [count])%list else ret acc)).

(** Strategy 5, lines 370-388 *)
Definition followers_heuristic (page_text : string) : M (flow Z) :=
  if looks_like_profile page_text then
    potential <- potential_followers page_text ;;
    match potential with
    | _ :: _ => ret (Return (hd 0 (sort_desc potential)))
    | [] => ret Next
    end
  else ret Next.

Definition _extract_followers : M (option Z) :=
  try_except
    (or_none
       (followers_from_scripts ;;;
        followers_from_selectors ;;;
        (page_text <- get_text soup ;;
         (followers_from_text page_text ;;;
          followers_from_context page_text ;;;
          followers_heuristic page_text))))
    (fun _ => ret None).

End Followers.

(** ** The HTTP session and the lookups *)

(** A decoded JSON document, as Python values. *)
#[local] Set Warnings "-register-all".
Inductive value : Type :=
| VNone
| VBool (b : bool)
| VInt (n : Z)
| VFloat (f : Num.float64)
| VStr (s : string)
| VList (l : list value)
| VDict (d : list (string * value)).

(** the truth value of a Python value *)
Definition truthy (v : value) : bool :=
  match v with
  | VNone => false
  | VBool b => b
  | VInt n => negb (n =? 0)
  | VFloat (Num.FFinite m _) => negb (m =? 0)
  | VFloat _ => true
  | VStr s => Str.nonempty s
  | VList l => match l with [] => false | _ => true end
  | VDict d => match d with [] => false | _ => true end
  end.

Definition is_none (v : value) : bool :=
  match v with VNone => true | _ => false end.

Fixpoint dict_get (d : list (string * value)) (key : string) (default : value)
  : value :=
  match d with
  | [] => default
  | (k, v) :: d' => if String.eqb k key then v else dict_get d' key default
  end.

(** [data.get(key, default)]: only a dict has the method *)
Definition py_get (data : value) (key : string) (default : value)
  : outcome value :=
  match data with
  | VDict d => Ok (dict_get d key default)
  | _ => Raise AttributeError
  end.

(** What the code reads of a response: the status, the body and the
    result of [response.json()]. *)
Record Response : Type := {
  status_code : Z;
  text : string;
  json : outcome value
}.

(** The world outside the process: what the [n]-th request of a call
    meets at a URL (a response or a raised transport exception), the
    HTML parser, and the clock read by [datetime.now().isoformat()]. *)
Record World : Type := {
  respond : nat -> string -> outcome Response;
  BeautifulSoup : string -> Soup;
  now : string
}.

(** the result record of the lookups: a Python dict whose keys may be
    absent *)
Record LookupResult : Type := {
  success : bool;
  user_id : Z;
  username : option value;
  followers : option value;
  timestamp : option string;
  error : option string
}.

Definition failure (uid : Z) (msg : string) : LookupResult :=
  {| success := false; user_id := uid; username := None; followers := None;
     timestamp := None; error := Some msg |}.

Definition is_get (ev : event) : bool :=
  match ev with EGet _ => true | _ => false end.

Definition requests_sent (tr : trace) : nat :=
  List.length (List.filter is_get tr).

Definition users_url (uid : Z) : string :=
  "https://users.roblox.com/v1/users/" ++ Num.str_of_int uid.

Definition followers_url (uid : Z) : string :=
  "https://friends.roblox.com/v1/users/" ++ Num.str_of_int uid
  ++ "/followers/count".

(** [self.base_url.format(user_id)] *)
Definition profile_url (uid : Z) : string :=
  "https://www.roblox.com/users/" ++ Num.str_of_int uid ++ "/profile".

Section Lookup.

Variable W : World.

(** [self.session.get(url, timeout=10)] *)
Definition session_get (url : string) : M Response :=
  fun tr => (respond W (requests_sent tr) url, (tr ++ [EGet url])%list).

(** [time.sleep(seconds)] *)
Definition sleep (seconds : Z) : M unit := emit (ESleep seconds).

(** [response.raise_for_status()] *)
Definition raise_for_status (response : Response) : M unit :=
  if (400 <=? status_code response) && (status_code response <? 600)
  then raise (HTTPError (status_code response))
  else ret tt.

(** [_get_username_from_api] (lines 82-98) *)
Definition _get_username_from_api (uid : Z) : M value :=
  try_except
    (response <- session_get (users_url uid) ;;
     if status_code response =? 200 then
       data <- lift (json response) ;;
       display_name <- lift (py_get data "displayName" VNone) ;;
       lift (py_get data "name" display_name)
     else if status_code response =? 404 then ret VNone
     else ret VNone)
    (fun _ => ret VNone).

(** [_get_followers_from_api] (lines 100-129) *)
Definition _get_followers_from_api (uid : Z) : M value :=
  try_except
    (let url := followers_url uid in
     response <- session_get url ;;
     if status_code response =? 200 then
       data <- lift (json response) ;;
       lift (py_get data "count" (VInt 0))
     else if status_code response =? 404 then ret VNone
     else if status_code response =? 429 then
       sleep 2 ;;
       response <- session_get url ;;
       if status_code response =? 200 then
         data <- lift (json response) ;;
         lift (py_get data "count" (VInt 0))
       else ret VNone
     else ret VNone)
    (fun _ => ret VNone).

(** [_scrape_user_profile] (lines 131-210) *)
Definition _scrape_user_profile (uid : Z) : M LookupResult :=
  try_except
    (response <- session_get (profile_url uid) ;;
     raise_for_status response ;;
     let soup := BeautifulSoup W (text response) in
     if Str.contains "User not found" (text response)
        || (status_code response =? 404)
     then ret (failure uid "User not found")
     else
       username <- _extract_username soup ;;
       followers <- _extract_followers soup ;;
       match followers with
       | None =>
           ret {| success := false; user_id := uid;
                  username := Some (VStr username); followers := None;
                  timestamp := None;
                  error := Some "Could not extract follower count from profile page" |}
       | Some followers =>
           ret {| success := true; user_id := uid;
                  username := Some (VStr username);
                  followers := Some (VInt followers);
                  timestamp := Some (now W); error := None |}
       end)
    (fun e =>
       match e with
       | Timeout =>
           ret (failure uid "Request timeout - Roblox servers may be slow")
       | ConnectionError =>
           ret (failure uid "Unable to connect to Roblox servers")
       | HTTPError status =>
           if status =? 404 then ret (failure uid "User not found")
           else ret (failure uid ("HTTP error: " ++ Num.str_of_int status))
       | _ => ret (failure uid "An unexpected error occurred during scraping")
       end).

(** [get_user_followers] (lines 32-80) *)
Definition get_user_followers (uid : Z) : M LookupResult :=
  try_except
    (username <- _get_username_from_api uid ;;
     followers <- _get_followers_from_api uid ;;
     if truthy username && negb (is_none followers) then
       ret {| success := true; user_id := uid; username := Some username;
              followers := Some followers; timestamp := Some (now W);
              error := None |}
     else _scrape_user_profile uid)
    (fun e =>
       match e with
       | Timeout =>
           ret (failure uid "Request timeout - Roblox servers may be slow")
       | ConnectionError =>
           ret (failure uid "Unable to connect to Roblox servers")
       | _ => ret (failure uid "An unexpected error occurred")
       end).

End Lookup.

(** ** The web layer (src/app.py)

    The routes that call the scraper.  A reply is the JSON object given
    to [jsonify] and the status returned with it (200 when the route
    returns the object alone). *)

Record HttpReply : Type := {
  reply_status : Z;
  reply_body : list (string * value)
}.

Definition jsonify (status : Z) (body : list (string * value)) : HttpReply :=
  {| reply_status := status; reply_body := body |}.

(** the digits of an integer literal, where single underscores may
    stand between digits *)
Fixpoint literal_digits (after_digit : bool) (acc : Z) (s : string)
  : option Z :=
  match s with
  | EmptyString => if after_digit then Some acc else None
  | String c s' =>
      if Str.is_digit c
      then literal_digits true (10 * acc + Num.digit_value c) s'
      else if Ascii.eqb c "_"
           then if after_digit then literal_digits false acc s' else None
           else None
  end.

(** [int(text)] on any text, as the query route calls it: surrounding
    blanks are dropped, one sign may lead, and the rest is a decimal
    literal; anything else raises [ValueError]. *)
Definition int_of_text (text : string) : outcome Z :=
  let literal :=
    match Str.strip text with
    | String c rest =>
        if Ascii.eqb c "-" then option_map Z.opp (literal_digits false 0 rest)
        else if Ascii.eqb c "+" then literal_digits false 0 rest
        else literal_digits false 0 (String c rest)
    | EmptyString => None
    end in
  match literal with
  | Some n => Ok n
  | None => Raise ValueError
  end.

(** [d[key]] on the result record: a missing key raises [KeyError],
    one of the other exceptions *)
Definition item {A} (field : option A) : M A :=
  match field with
  | Some a => ret a
  | None => raise OtherException
  end.

Section Web.

Variable W : World.

(** [str(e)], the text of an exception, which the libraries choose *)
Variable str_of_exn : exn -> string.

(** [get_followers] (lines 22-73) *)
Definition get_followers (uid : Z) : M HttpReply :=
  try_except
    (if uid <=? 0 then
       ret (jsonify 400
              [("error", VStr "Invalid user ID");
               ("message", VStr "User ID must be a positive integer")])
     else
       result <- get_user_followers W uid ;;
       if success result then
         result_followers <- item (followers result) ;;
         ret (jsonify 200
                [("user_id", VInt uid);
                 ("followers", result_followers);
                 ("username",
                  match username result with
                  | Some name => name
                  | None => VStr "Unknown"
                  end);
                 ("timestamp",
                  match timestamp result with
                  | Some t => VStr t
                  | None => VNone
                  end)])
       else
         result_error <- item (error result) ;;
         ret (jsonify 404
                [("error", VStr result_error); ("user_id", VInt uid)]))
    (fun e =>
       match e with
       | ValueError =>
           ret (jsonify 400
                  [("error", VStr "Invalid user ID format");
                   ("message", VStr (str_of_exn e))])
       | _ =>
           ret (jsonify 500
                  [("error", VStr "Internal server error");
                   ("message",
                    VStr "An unexpected error occurred while processing your request")])
       end).

(** [get_followers_query] (lines 75-100); the argument is
    [request.args.get('user_id')] *)
Definition get_followers_query (user_id : option string) : M HttpReply :=
  let missing :=
    ret (jsonify 400
           [("error", VStr "Missing user_id parameter");
            ("message", VStr "Please provide a user_id query parameter")]) in
  match user_id with
  | None => missing
  | Some text =>
      if negb (Str.nonempty text) then missing
      else
        try_except
          (uid <- lift (int_of_text text) ;; get_followers uid)
          (fun e =>
             match e with
             | ValueError =>
                 ret (jsonify 400
                        [("error", VStr "Invalid user_id format");
                         ("message", VStr "user_id must be a valid integer")])
             | _ => raise e
             end)
  end.

End Web.

(** * Definitions for the statements

    Predicates, the strategies and orders that the specification speaks
    of, and the sample pages and worlds of the examples. *)

(** ** Tokens *)

(** a text without any digit *)
Definition no_digit (s : string) : Prop :=
  Str.existsb Str.is_digit s = false.

(** ** Control flow and traces *)

(** [returns_only P s]: whatever the statement [s] returns satisfies
    [P]. *)
Definition returns_only {R} (P : R -> Prop) (s : M (flow R)) : Prop :=
  forall tr r tr', s tr = (Ok (Return r), tr') -> P r.

(** ** Username strategies

    The specification presents username extraction as a list of
    strategies tried in order.  A strategy puts one question to the
    document and reads a candidate from the answer; the candidates below
    are those of the source. *)

Record strategy : Type := {
  ask : query;
  pick : Soup -> option string
}.

(** the candidate, when it is non-empty and shorter than 50 characters *)
Definition keep_usable (username : string) : option string :=
  if usable username then Some username else None.

(** lines 216-223 *)
Definition title_strategy : strategy :=
  {| ask := QFind "title";
     pick := fun soup =>
       match soup_find soup "title" with
       | Some title =>
           let title_text := Str.strip (tag_get_text title) in
           if Str.contains " - Roblox" title_text
           then keep_usable (Str.strip (Str.replace " - Roblox" "" title_text))
           else None
       | None => None
       end |}.

(** lines 227-233 *)
Definition description_strategy : strategy :=
  {| ask := QFindAttr "meta" "name" "description";
     pick := fun soup =>
       match soup_find_attr soup "meta" "name" "description" with
       | Some meta_desc =>
           let content := tag_get (tag_attrs meta_desc) "content" "" in
           if Str.nonempty content
              && Str.contains " is one of the millions" content
           then keep_usable
                  (Str.strip (Str.split_head " is one of the millions" content))
           else None
       | None => None
       end |}.

(** lines 239-245 *)
Definition og_title_strategy : strategy :=
  {| ask := QFindAttr "meta" "property" "og:title";
     pick := fun soup =>
       match soup_find_attr soup "meta" "property" "og:title" with
       | Some og_title =>
           let content := tag_get (tag_attrs og_title) "content" "" in
           if Str.nonempty content && Str.contains "'s Profile" content
           then keep_usable (Str.strip (Str.replace "'s Profile" "" content))
           else None
       | None => None
       end |}.

(** lines 262-266, for one selector *)
Definition selector_strategy (selector : string) : strategy :=
  {| ask := QSelectOne selector;
     pick := fun soup =>
       match soup_select_one soup selector with
       | Some element => keep_usable (Str.strip (tag_get_text element))
       | None => None
       end |}.

(** the first heading that passes the filter of line 275 *)
Fixpoint first_heading (h1_elements : list Tag) : option string :=
  match h1_elements with
  | [] => None
  | h1 :: rest =>
      let text := Str.strip (tag_get_text h1) in
      if usable text && negb (has_stop_word text) then Some text
      else first_heading rest
  end.

(** lines 272-276 *)
Definition heading_strategy : strategy :=
  {| ask := QFindAll "h1";
     pick := fun soup => first_heading (soup_find_all soup "h1") |}.

(** title, meta description, og:title, the selectors, the headings *)
Definition username_strategies : list strategy :=
  [title_strategy; description_strategy; og_title_strategy]
  ++ map selector_strategy selectors
  ++ [heading_strategy].

(** The first strategy with a candidate wins: its candidate, and the
    questions put to the document up to and including its own. *)
Fixpoint first_match (soup : Soup) (ss : list strategy)
  : option string * list query :=
  match ss with
  | [] => (None, [])
  | s :: ss' =>
      match pick s soup with
      | Some u => (Some u, [ask s])
      | None => let '(r, qs) := first_match soup ss' in (r, ask s :: qs)
      end
  end.

(** a candidate as the outcome of a statement *)
Definition to_flow {R} (o : option R) : flow R :=
  match o with Some r => Return r | None => Next end.

(** one strategy, run *)
Definition attempt (soup : Soup) (s : strategy) : M (flow string) :=
  fun tr => (Ok (to_flow (pick s soup)), (tr ++ [EQuery (ask s)])%list).

(** a page titled "Jane - Roblox" whose og:title names someone else *)
Definition jane_page : Soup :=
  {| soup_find := fun name =>
       if String.eqb name "title"
       then Some {| tag_get_text := "Jane - Roblox";
                    tag_string := Some "Jane - Roblox";
                    tag_attrs := [] |}
       else None;
     soup_find_attr := fun name key val =>
       if String.eqb name "meta" && String.eqb key "property"
          && String.eqb val "og:title"
       then Some {| tag_get_text := "";
                    tag_string := None;
                    tag_attrs := [("property", "og:title");
                                  ("content", "Someone Else's Profile")] |}
       else None;
     soup_find_all := fun _ => [];
     soup_select_one := fun _ => None;
     soup_select := fun _ => [];
     soup_get_text := "Jane - Roblox" |}.

(** ** Follower counts *)

(** sorted from the largest down *)
Definition descending (l : list Z) : Prop :=
  StronglySorted (fun a b => b <= a) l.

(** the count that a match contributes: its normalised value when it is
    in the range *)
Definition candidate (m : string) : list Z :=
  match _parse_number m with
  | Ok n => if reasonable n then [n] else []
  | Raise _ => []
  end.

(** the candidates of a page text: the in-range values of all
    comma-grouped and all suffixed numbers in it *)
Definition candidates (page_text : string) : list Z :=
  flat_map (fun pattern => flat_map candidate (Re.findall pattern page_text))
           Re.number_patterns.

(** [_extract_followers] with its last strategy taken out *)
Definition extract_followers_first_four (soup : Soup) : M (option Z) :=
  try_except
    (or_none
       (followers_from_scripts soup ;;;
        followers_from_selectors soup ;;;
        (page_text <- get_text soup ;;
         (followers_from_text page_text ;;;
          followers_from_context page_text))))
    (fun _ => ret None).

(** a page text with a comma-grouped and a suffixed number *)
Definition heuristic_sample : string := "Roblox profile 1,234 and 2.5k".

(** the first result that a list yields *)
Fixpoint first_some {X Y} (f : X -> option Y) (xs : list X) : option Y :=
  match xs with
  | [] => None
  | x :: xs' =>
      match f x with
      | Some y => Some y
      | None => first_some f xs'
      end
  end.

(** the first match of a pattern in a script content *)
Definition pattern_match (content : string) (pattern : Re.regex)
  : option string :=
  hd_error (Re.findall pattern content).

(** Script by script: in the first script that has a match for some
    pattern, the match of the earliest such pattern. *)
Definition script_then_pattern (scripts : list Tag) : option string :=
  first_some (fun script =>
    match script_content script with
    | Some content => first_some (pattern_match content) Re.follower_patterns
    | None => None
    end) scripts.

(** Pattern by pattern, as the specification words it: for the earliest
    pattern that has a match in some script, its match in the first such
    script. *)
Definition pattern_then_script (scripts : list Tag) : option string :=
  first_some (fun pattern =>
    first_some (fun script =>
      match script_content script with
      | Some content => pattern_match content pattern
      | None => None
      end) scripts) Re.follower_patterns.

(** the number that a digit string denotes *)
Definition count_of (m : string) : Z := Num.digits_value 0 m.

(** an inline script: a script tag with one string child *)
Definition inline_script (content : string) : Tag :=
  {| tag_get_text := content; tag_string := Some content; tag_attrs := [] |}.

(** a page with two inline scripts: the first holds the key
    [followers], the second the key [followersCount] *)
Definition two_script_page : Soup :=
  {| soup_find := fun _ => None;
     soup_find_attr := fun _ _ _ => None;
     soup_find_all := fun name =>
       if String.eqb name "script"
       then [ inline_script ("{" ++ Str.quoted "followers" ++ ": 5}");
              inline_script ("{" ++ Str.quoted "followersCount" ++ ": 7}") ]
       else [];
     soup_select_one := fun _ => None;
     soup_select := fun _ => [];
     soup_get_text := "" |}.


(** a count that is not negative *)
Definition nonneg (n : Z) : Prop := 0 <= n.

(** [extends m]: running [m] appends to the trace. *)
Definition extends {A} (m : M A) : Prop :=
  forall tr, exists suffix, snd (m tr) = (tr ++ suffix)%list.

(** ** Responses, worlds and results *)

(** the value that the code reads off a response with status 200 *)
Definition json_field (response : Response) (key : string) (default : value)
  : value :=
  match json response with
  | Ok (VDict d) => dict_get d key default
  | _ => VNone
  end.

(** the outcome of the answer to the retry *)
Definition retry_value (answer : outcome Response) : value :=
  match answer with
  | Ok response =>
      if status_code response =? 200
      then json_field response "count" (VInt 0)
      else VNone
  | Raise _ => VNone
  end.

(** an answer of the follower-count endpoint with the count [n] *)
Definition count_response (n : Z) : Response :=
  {| status_code := 200; text := "";
     json := Ok (VDict [("count", VInt n)]) |}.

(** an answer with a status and a body that is not JSON *)
Definition status_response (status : Z) (body : string) : Response :=
  {| status_code := status; text := body; json := Raise ValueError |}.

(** a document in which nothing is found *)
Definition empty_page : Soup :=
  {| soup_find := fun _ => None;
     soup_find_attr := fun _ _ _ => None;
     soup_find_all := fun _ => [];
     soup_select_one := fun _ => None;
     soup_select := fun _ => [];
     soup_get_text := "" |}.

(** a world whose first answer is 429 and whose later answers carry the
    count 42 *)
Definition rate_limited_world : World :=
  {| respond := fun n url =>
       match n with
       | O => Ok (status_response 429 "")
       | _ => Ok (count_response 42)
       end;
     BeautifulSoup := fun _ => empty_page;
     now := "2024-01-01T00:00:00" |}.

(** the statuses for which [raise_for_status] raises *)
Definition is_error_status (status : Z) : bool :=
  (400 <=? status) && (status <? 600).

(** the result of the handlers of [_scrape_user_profile] *)
Definition scrape_failure (uid : Z) (e : exn) : LookupResult :=
  match e with
  | Timeout => failure uid "Request timeout - Roblox servers may be slow"
  | ConnectionError => failure uid "Unable to connect to Roblox servers"
  | HTTPError status =>
      if status =? 404 then failure uid "User not found"
      else failure uid ("HTTP error: " ++ Num.str_of_int status)
  | _ => failure uid "An unexpected error occurred during scraping"
  end.

(** the result of the extraction stage (lines 153-175) *)
Definition extracted (W : World) (uid : Z) (username : string)
           (followers : option Z) : LookupResult :=
  match followers with
  | None =>
      {| success := false; user_id := uid;
         username := Some (VStr username); followers := None;
         timestamp := None;
         error := Some "Could not extract follower count from profile page" |}
  | Some n =>
      {| success := true; user_id := uid;
         username := Some (VStr username); followers := Some (VInt n);
         timestamp := Some (now W); error := None |}
  end.


(** a world that answers 429 to every request *)
Definition always_limited_world : World :=
  {| respond := fun _ _ => Ok (status_response 429 "");
     BeautifulSoup := fun _ => empty_page;
     now := "2024-01-01T00:00:00" |}.

(** every request meets a 500 whose body holds the marker *)
Definition server_error_world : World :=
  {| respond := fun _ _ => Ok (status_response 500 "User not found");
     BeautifulSoup := fun _ => empty_page;
     now := "2024-01-01T00:00:00" |}.


(** every request meets a 200 with an empty document *)
Definition plain_page_world : World :=
  {| respond := fun _ _ => Ok (status_response 200 "<html></html>");
     BeautifulSoup := fun _ => empty_page;
     now := "2024-01-01T00:00:00" |}.

(** the result of the structured lookup when it is complete *)
Definition api_result (W : World) (uid : Z) (u f : value) : LookupResult :=
  {| success := true; user_id := uid; username := Some u;
     followers := Some f; timestamp := Some (now W); error := None |}.

(** ** The claims on the entry operation *)




(** an answer of the identity endpoint with a name *)
Definition name_response (name : string) : Response :=
  {| status_code := 200; text := "";
     json := Ok (VDict [("name", VStr name)]) |}.

(** for user 1 the identity endpoint answers a name and the
    follower-count endpoint answers the count [n]; nothing else is
    reachable *)
Definition api_world (n : Z) : World :=
  {| respond := fun _ url =>
       if String.eqb url (users_url 1) then Ok (name_response "builderman")
       else if String.eqb url (followers_url 1) then Ok (count_response n)
       else Raise ConnectionError;
     BeautifulSoup := fun _ => empty_page;
     now := "2024-01-01T00:00:00" |}.





(** the HTML of the page of the two scripts *)
Definition two_script_html : string :=
  "<script>{" ++ Str.quoted "followers" ++ ": 5}</script>"
  ++ "<script>{" ++ Str.quoted "followersCount" ++ ": 7}</script>".

(** for user 1 the identity endpoint times out, the follower-count
    endpoint answers the count 3 and the profile page is the page of the
    two scripts *)
Definition identity_timeout_world : World :=
  {| respond := fun _ url =>
       if String.eqb url (users_url 1) then Raise Timeout
       else if String.eqb url (followers_url 1) then Ok (count_response 3)
       else if String.eqb url (profile_url 1)
            then Ok (status_response 200 two_script_html)
            else Raise ConnectionError;
     BeautifulSoup := fun html =>
       if String.eqb html two_script_html then two_script_page
       else empty_page;
     now := "2024-01-01T00:00:00" |}.

(** a result with its timestamp erased *)
Definition without_timestamp (r : LookupResult) : LookupResult :=
  {| success := success r; user_id := user_id r; username := username r;
     followers := followers r; timestamp := None; error := error r |}.

(** two worlds that differ in the clock only *)
Definition at_time (W : World) (t : string) : World :=
  {| respond := respond W; BeautifulSoup := BeautifulSoup W; now := t |}.

(** ** Further properties: tokens *)


(** a text that does not start with a blank *)
Definition starts_clean (s : string) : Prop :=
  match s with
  | EmptyString => True
  | String c _ => Str.is_space c = false
  end.

(** ** Further properties: follower-count strategies *)

(** what a token decides once a strategy has picked it: the count it
    normalises to, or the exception that escapes [_parse_number] *)
Definition token_decides (m : string) : outcome (flow Z) :=
  match _parse_number m with
  | Ok n => Ok (Return n)
  | Raise e => Raise e
  end.

(** what a strategy decides with the token it picked, if any *)
Definition decided (picked : option string) : outcome (flow Z) :=
  match picked with
  | Some m => token_decides m
  | None => Ok Next
  end.

(** the text of an element when it is non-empty and holds a digit
    (lines 330-331) *)
Definition countable_text (element : Tag) : option string :=
  let text := Str.strip (tag_get_text element) in
  if Str.nonempty text && Str.existsb Str.is_digit text
  then Some text else None.

(** the selectors in order, the elements of each in document order: the
    first countable text, and the selectors tried *)
Fixpoint selector_scan (soup : Soup) (selectors : list string)
  : option string * list query :=
  match selectors with
  | [] => (None, [])
  | selector :: rest =>
      match first_some countable_text (soup_select soup selector) with
      | Some text => (Some text, [QSelect selector])
      | None =>
          let '(r, qs) := selector_scan soup rest in
          (r, QSelect selector :: qs)
      end
  end.

(** a page whose follower-count element holds a number too long for a
    float, and whose text states the count in words *)
Definition overflow_page : Soup :=
  {| soup_find := fun _ => None;
     soup_find_attr := fun _ _ _ => None;
     soup_find_all := fun _ => [];
     soup_select_one := fun _ => None;
     soup_select := fun selector =>
       if String.eqb selector ".followers-count"
       then [ {| tag_get_text := Str.repeat "9" 310 ++ ".0";
                 tag_string := Some (Str.repeat "9" 310 ++ ".0");
                 tag_attrs := [("class", "followers-count")] |} ]
       else [];
     soup_get_text := "Roblox profile 1,234 Followers" |}.

(** a page that states the count in its text only *)
Definition text_only_page : Soup :=
  {| soup_find := fun _ => None;
     soup_find_attr := fun _ _ _ => None;
     soup_find_all := fun _ => [];
     soup_select_one := fun _ => None;
     soup_select := fun _ => [];
     soup_get_text := "Roblox profile 1,234 Followers" |}.

(** ** Further properties: requests and results *)

(** [asks_only m]: running [m] adds document queries to the trace and
    nothing else *)
Definition asks_only {A} (m : M A) : Prop :=
  forall tr, exists qs, snd (m tr) = (tr ++ map EQuery qs)%list.

(** [key in d] *)
Definition dict_has (d : list (string * value)) (key : string) : bool :=
  List.existsb (fun kv => String.eqb (fst kv) key) d.

(** the requests of the structured lookup: the two calls, with or
    without the retry *)
Definition api_requests (uid : Z) (retried : bool) : trace :=
  if retried
  then [EGet (users_url uid); EGet (followers_url uid); ESleep 2;
        EGet (followers_url uid)]
  else [EGet (users_url uid); EGet (followers_url uid)].

(** an answer of the identity endpoint that holds both names *)
Definition both_names_response : Response :=
  {| status_code := 200; text := "";
     json := Ok (VDict [("displayName", VStr "Builder Man");
                        ("name", VStr "builderman")]) |}.

(** an answer with an empty JSON object *)
Definition empty_object_response : Response :=
  {| status_code := 200; text := ""; json := Ok (VDict []) |}.

(** for user 1 the identity endpoint answers both names and the
    follower-count endpoint answers an object without a count *)
Definition no_count_world : World :=
  {| respond := fun _ url =>
       if String.eqb url (users_url 1) then Ok both_names_response
       else if String.eqb url (followers_url 1) then Ok empty_object_response
       else Raise ConnectionError;
     BeautifulSoup := fun _ => empty_page;
     now := "2024-01-01T00:00:00" |}.



(** ** Further properties: the web layer *)

(** the replies of the routes *)
Definition invalid_id_reply : HttpReply :=
  jsonify 400
    [("error", VStr "Invalid user ID");
     ("message", VStr "User ID must be a positive integer")].

Definition success_reply (uid : Z) (name count : value) (time : string)
  : HttpReply :=
  jsonify 200
    [("user_id", VInt uid); ("followers", count); ("username", name);
     ("timestamp", VStr time)].





(** the text that [str] gives no answer for: any exception has the same
    text *)
Definition no_text (e : exn) : string := "".

(** * Properties *)

(** ** Numbers *)

Example parse_comma : _parse_number "1,234" = Ok 1234.
Proof. vm_compute. reflexivity. Qed.

Example parse_k : _parse_number "2.5k" = Ok 2500.
Proof. vm_compute. reflexivity. Qed.

Example parse_M : _parse_number "3M" = Ok 3000000.
Proof. vm_compute. reflexivity. Qed.

Example parse_abc : _parse_number "abc" = Ok 0.
Proof. vm_compute. reflexivity. Qed.

Example parse_zero : _parse_number "0" = Ok 0.
Proof. vm_compute. reflexivity. Qed.

Example parse_tenth : _parse_number "0.1k" = Ok 100.
Proof. vm_compute. reflexivity. Qed.

Module NumFacts.
Import Num.

Lemma round_half_even_nonneg n d :
  0 <= n -> 0 < d -> 0 <= round_half_even n d.
Proof.
  intros Hn Hd. unfold round_half_even.
  assert (Hq : 0 <= n / d) by (apply Z.div_pos; lia).
  destruct (2 * (n mod d) ?= d); try lia.
  destruct (Z.even (n / d)); lia.
Qed.

Lemma round_to_double_nonneg n d :
  0 <= n -> 0 < d -> nonneg_float (round_to_double n d).
Proof.
  intros Hn Hd. unfold round_to_double.
  destruct (n =? 0); [simpl; lia|].
  set (e := ulp_exponent n d).
  destruct (0 <=? e) eqn:He.
  - destruct (true && _); [reflexivity|]. simpl.
    apply round_half_even_nonneg; [lia|].
    apply Z.mul_pos_pos; [lia|]. apply Z.pow_pos_nonneg; lia.
  - simpl. apply round_half_even_nonneg; [|lia].
    apply Z.mul_nonneg_nonneg; [lia|]. apply Z.pow_nonneg. lia.
Qed.

Lemma double_of_scaled_nonneg m e :
  0 <= m -> nonneg_float (double_of_scaled m e).
Proof.
  intros Hm. unfold double_of_scaled.
  replace (m <? 0) with false by (symmetry; apply Z.ltb_ge; lia).
  destruct (0 <=? e) eqn:He.
  - apply round_to_double_nonneg; [|lia].
    apply Z.mul_nonneg_nonneg; [lia|]. apply Z.pow_nonneg. lia.
  - apply round_to_double_nonneg; [lia|].
    apply Z.pow_pos_nonneg; lia.
Qed.

Lemma float_mul_nonneg a b :
  nonneg_float a -> pos_float b -> nonneg_float (float_mul a b).
Proof.
  destruct a as [m1 e1|n1|], b as [m2 e2|n2|]; simpl; try tauto.
  - intros H1 H2. apply double_of_scaled_nonneg. nia.
  - intros -> H2.
    replace (m2 =? 0) with false by (symmetry; apply Z.eqb_neq; lia).
    replace (m2 <? 0) with false by (symmetry; apply Z.ltb_ge; lia).
    reflexivity.
Qed.

(** The conversion of a non-negative double gives a non-negative
    integer, or raises [OverflowError] at infinity. *)
Lemma int_of_float_nonneg f :
  nonneg_float f ->
  (exists n, int_of_float f = Ok n /\ 0 <= n)
  \/ int_of_float f = Raise OverflowError.
Proof.
  destruct f as [m e|neg|]; simpl; intros H.
  - left. eexists. split; [reflexivity|].
    destruct (0 <=? e) eqn:He.
    + apply Z.mul_nonneg_nonneg; [lia|]. apply Z.pow_nonneg. lia.
    + apply Z.quot_pos; [lia|]. apply Z.pow_pos_nonneg; lia.
  - right. reflexivity.
  - contradiction.
Qed.

Lemma digit_value_nonneg c : Str.is_digit c = true -> 0 <= digit_value c.
Proof.
  unfold Str.is_digit, digit_value. intros H.
  apply andb_prop in H as [H _]. apply Nat.leb_le in H. lia.
Qed.

Lemma digits_value_nonneg s acc :
  Str.forallb Str.is_digit s = true -> 0 <= acc -> 0 <= digits_value acc s.
Proof.
  revert acc.
  induction s as [|c s IH]; cbn [digits_value Str.forallb];
    intros acc H Hacc; [lia|].
  apply andb_prop in H as [Hc Hs].
  apply IH; [assumption|]. pose proof (digit_value_nonneg c Hc). lia.
Qed.

Lemma forallb_app p s t :
  Str.forallb p (s ++ t) = Str.forallb p s && Str.forallb p t.
Proof.
  induction s as [|c s IH]; simpl; [reflexivity|].
  rewrite IH. apply andb_assoc.
Qed.

Lemma py_int_nonneg s n : py_int s = Ok n -> 0 <= n.
Proof.
  unfold py_int. destruct (Str.nonempty s); simpl; [|discriminate].
  destruct (Str.forallb Str.is_digit s) eqn:H; [|discriminate].
  intros [= <-]. apply digits_value_nonneg; [assumption|lia].
Qed.

Lemma py_int_outcome s :
  (exists n, py_int s = Ok n) \/ py_int s = Raise ValueError.
Proof.
  unfold py_int. destruct (_ && _); eauto.
Qed.

Lemma py_float_nonneg s :
  (exists f, py_float s = Ok f /\ nonneg_float f)
  \/ py_float s = Raise ValueError.
Proof.
  unfold py_float.
  destruct (Str.forallb Str.is_digit (before_dot s)) eqn:H1; simpl; [|auto].
  destruct (Str.forallb Str.is_digit (after_dot s)) eqn:H2; simpl; [|auto].
  destruct (Str.existsb is_dot s && _); [|auto].
  left. eexists. split; [reflexivity|].
  apply round_to_double_nonneg.
  - apply digits_value_nonneg; [|lia]. rewrite forallb_app, H1, H2. reflexivity.
  - apply Z.pow_pos_nonneg; lia.
Qed.

End NumFacts.

(** What [_parse_number] can do: return a non-negative integer, or let
    the [OverflowError] of the float conversion escape. *)
Lemma parse_number_outcome text :
  (exists n, _parse_number text = Ok n /\ 0 <= n)
  \/ _parse_number text = Raise OverflowError.
Proof.
  unfold _parse_number.
  set (t := Str.lower (Str.strip text)).
  assert (H : forall multiplier body_text,
             0 < multiplier ->
             Num.pos_float (Num.float_of_int multiplier) ->
             let number_str :=
               Str.filter (fun c => Str.is_digit c || Num.is_dot c) body_text in
             let body :=
               if Str.existsb Num.is_dot number_str then
                 match Num.py_float number_str with
                 | Ok f => Num.int_of_float
                             (Num.float_mul f (Num.float_of_int multiplier))
                 | Raise e => Raise e
                 end
               else
                 match Num.py_int number_str with
                 | Ok n => Ok (n * multiplier)
                 | Raise e => Raise e
                 end in
             (exists n, match body with
                        | Raise ValueError | Raise AttributeError => Ok 0
                        | r => r
                        end = Ok n /\ 0 <= n)
             \/ match body with
                | Raise ValueError | Raise AttributeError => Ok 0
                | r => r
                end = Raise OverflowError).
  { intros multiplier body_text Hm Hf number_str body. subst body.
    destruct (Str.existsb Num.is_dot number_str).
    - destruct (NumFacts.py_float_nonneg number_str) as [(f & -> & Hf')| ->].
      + destruct (NumFacts.int_of_float_nonneg
                    (Num.float_mul f (Num.float_of_int multiplier)))
          as [(n & -> & Hn)| ->].
        * apply NumFacts.float_mul_nonneg; assumption.
        * left. eauto.
        * right. reflexivity.
      + left. exists 0. split; [reflexivity|lia].
    - destruct (NumFacts.py_int_outcome number_str) as [(n & Hn)| ->].
      + rewrite Hn. left. exists (n * multiplier). split; [reflexivity|].
        apply NumFacts.py_int_nonneg in Hn. nia.
      + left. exists 0. split; [reflexivity|lia]. }
  destruct (Str.endswith_char "k" t);
    [apply H; [lia | vm_compute; reflexivity]|].
  destruct (Str.endswith_char "m" t);
    [apply H; [lia | vm_compute; reflexivity]|].
  destruct (Str.endswith_char "b" t);
    [apply H; [lia | vm_compute; reflexivity]|].
  apply H; [lia | vm_compute; reflexivity].
Qed.

Lemma parse_number_nonneg text n : _parse_number text = Ok n -> 0 <= n.
Proof.
  intros H. destruct (parse_number_outcome text) as [(m & Hm & Hpos)|Hr];
    congruence.
Qed.

(** *** Tokens without a digit *)

Lemma lower_char_digit c : Str.is_digit (Str.lower_char c) = Str.is_digit c.
Proof. destruct c as [[] [] [] [] [] [] [] []]; reflexivity. Qed.

Lemma no_digit_lower s : no_digit s -> no_digit (Str.lower s).
Proof.
  unfold no_digit. induction s as [|c s IH]; cbn [Str.lower Str.existsb];
    [auto|].
  rewrite lower_char_digit. intros H. apply orb_false_elim in H as [-> H].
  exact (IH H).
Qed.

Lemma no_digit_lstrip s : no_digit s -> no_digit (Str.lstrip s).
Proof.
  unfold no_digit. induction s as [|c s IH]; cbn [Str.lstrip]; [auto|].
  intros H. destruct (Str.is_space c); [|exact H].
  cbn [Str.existsb] in H. apply orb_false_elim in H as [_ H]. exact (IH H).
Qed.

Lemma no_digit_rstrip s : no_digit s -> no_digit (Str.rstrip s).
Proof.
  unfold no_digit. induction s as [|c s IH]; cbn [Str.rstrip]; [auto|].
  cbn [Str.existsb]. intros H. apply orb_false_elim in H as [Hc H].
  specialize (IH H). destruct (Str.rstrip s) as [|d t].
  - destruct (Str.is_space c); cbn [Str.existsb]; [reflexivity|].
    rewrite Hc. reflexivity.
  - cbn [Str.existsb] in *. rewrite Hc. exact IH.
Qed.

Lemma no_digit_drop_last s : no_digit s -> no_digit (Str.drop_last s).
Proof.
  unfold no_digit. induction s as [|c s IH]; cbn [Str.drop_last]; [auto|].
  cbn [Str.existsb]. intros H. apply orb_false_elim in H as [Hc H].
  destruct s as [|d t]; [reflexivity|].
  cbn [Str.existsb] in *. rewrite Hc. exact (IH H).
Qed.

Lemma no_digit_filter p s : no_digit s -> no_digit (Str.filter p s).
Proof.
  unfold no_digit. induction s as [|c s IH]; cbn [Str.filter]; [auto|].
  cbn [Str.existsb]. intros H. apply orb_false_elim in H as [Hc H].
  destruct (p c); [|exact (IH H)].
  cbn [Str.existsb]. rewrite Hc. exact (IH H).
Qed.

Lemma digits_have_digit s :
  Str.nonempty s = true -> Str.forallb Str.is_digit s = true ->
  Str.existsb Str.is_digit s = true.
Proof.
  destruct s as [|c s]; [discriminate|]. cbn [Str.forallb Str.existsb].
  intros _ H. apply andb_prop in H as [-> _]. reflexivity.
Qed.

Lemma existsb_app p s t :
  Str.existsb p (s ++ t) = Str.existsb p s || Str.existsb p t.
Proof.
  induction s as [|c s IH]; cbn [append Str.existsb]; [reflexivity|].
  rewrite IH. apply orb_assoc.
Qed.

Lemma no_digit_around_dot s :
  no_digit s -> no_digit (Num.before_dot s ++ Num.after_dot s).
Proof.
  unfold no_digit.
  induction s as [|c s IH]; cbn [Num.before_dot Num.after_dot]; [auto|].
  cbn [Str.existsb]. intros H. apply orb_false_elim in H as [Hc H].
  destruct (Num.is_dot c); [exact H|].
  cbn [append Str.existsb]. rewrite Hc. exact (IH H).
Qed.

Lemma py_float_no_digit s : no_digit s -> Num.py_float s = Raise ValueError.
Proof.
  intros H. apply no_digit_around_dot in H. unfold no_digit in H.
  unfold Num.py_float.
  destruct (Str.forallb Str.is_digit (Num.before_dot s)) eqn:H1;
    [|reflexivity].
  destruct (Str.forallb Str.is_digit (Num.after_dot s)) eqn:H2;
    [|reflexivity].
  destruct (Str.nonempty (Num.before_dot s ++ Num.after_dot s)) eqn:Hn;
    [|rewrite andb_false_r; reflexivity].
  rewrite digits_have_digit in H; [discriminate | exact Hn|].
  rewrite NumFacts.forallb_app, H1, H2. reflexivity.
Qed.

Lemma py_int_no_digit s : no_digit s -> Num.py_int s = Raise ValueError.
Proof.
  unfold no_digit, Num.py_int. intros H.
  destruct (Str.nonempty s) eqn:Hn; [|reflexivity].
  destruct (Str.forallb Str.is_digit s) eqn:Hd; [|reflexivity].
  rewrite (digits_have_digit _ Hn Hd) in H. discriminate.
Qed.

(** A token without any digit normalises to 0. *)
Lemma parse_number_no_digit text :
  Str.existsb Str.is_digit text = false -> _parse_number text = Ok 0.
Proof.
  intros H.
  assert (Ht : no_digit (Str.lower (Str.strip text))).
  { apply no_digit_lower, no_digit_rstrip, no_digit_lstrip, H. }
  unfold _parse_number.
  set (t := Str.lower (Str.strip text)) in *.
  assert (Hbody : forall multiplier body_text,
             no_digit body_text ->
             let number_str :=
               Str.filter (fun c => Str.is_digit c || Num.is_dot c) body_text in
             let body :=
               if Str.existsb Num.is_dot number_str then
                 match Num.py_float number_str with
                 | Ok f => Num.int_of_float
                             (Num.float_mul f (Num.float_of_int multiplier))
                 | Raise e => Raise e
                 end
               else
                 match Num.py_int number_str with
                 | Ok n => Ok (n * multiplier)
                 | Raise e => Raise e
                 end in
             match body with
             | Raise ValueError | Raise AttributeError => Ok 0
             | r => r
             end = Ok 0).
  { intros multiplier body_text Hb number_str body. subst body.
    assert (Hns : no_digit number_str) by (apply no_digit_filter, Hb).
    rewrite (py_float_no_digit _ Hns), (py_int_no_digit _ Hns).
    destruct (Str.existsb Num.is_dot number_str); reflexivity. }
  destruct (Str.endswith_char "k" t);
    [apply Hbody, no_digit_drop_last, Ht|].
  destruct (Str.endswith_char "m" t);
    [apply Hbody, no_digit_drop_last, Ht|].
  destruct (Str.endswith_char "b" t);
    [apply Hbody, no_digit_drop_last, Ht|].
  apply Hbody, Ht.
Qed.

(** C4. [_parse_number] maps "1,234" to 1234, "2.5k" to 2500, "3M" to
    3000000, "abc" to 0 and "0" to 0, and an integer that it returns is
    never negative.  It is not total, though: its handler catches
    [ValueError] and [AttributeError] only, and on a token of 310 digits,
    a dot and a digit the float is infinite and the [OverflowError] of
    its conversion to an integer escapes; that is the only exception that
    can. *)
Theorem parse_number_overflow_escapes :
  _parse_number (Str.repeat "9" 310 ++ ".0") = Raise OverflowError
  /\ (forall text,
        (exists n, _parse_number text = Ok n /\ 0 <= n)
        \/ _parse_number text = Raise OverflowError)
  /\ _parse_number "1,234" = Ok 1234
  /\ _parse_number "2.5k" = Ok 2500
  /\ _parse_number "3M" = Ok 3000000
  /\ _parse_number "abc" = Ok 0
  /\ _parse_number "0" = Ok 0.
Proof.
  split; [vm_compute; reflexivity|].
  split; [exact parse_number_outcome|].
  repeat split; vm_compute; reflexivity.
Qed.

(** The residue that [_parse_number] converts holds digits and dots
    only, so that [int] sees digits only. *)
Lemma parse_number_residue text :
  let number_str :=
    Str.filter (fun c => Str.is_digit c || Num.is_dot c) text in
  Str.existsb Num.is_dot number_str = false ->
  Str.forallb Str.is_digit number_str = true.
Proof.
  induction text as [|c s IH]; cbn [Str.filter]; [reflexivity|].
  destruct (Str.is_digit c) eqn:Hd; cbn [orb].
  - cbn [Str.existsb Str.forallb]. rewrite Hd. intros H.
    apply orb_false_elim in H as [_ H]. apply IH, H.
  - destruct (Num.is_dot c) eqn:Hdot; [|exact IH].
    cbn [Str.existsb]. rewrite Hdot. discriminate.
Qed.

(** ** Control flow *)

Section ReturnsOnly.

Context {R : Type} (P : R -> Prop).

Lemma returns_only_next : returns_only P (ret Next).
Proof. intros tr r tr' H. discriminate. Qed.

Lemma returns_only_return r : P r -> returns_only P (ret (Return r)).
Proof. intros HP tr r' tr' [= <- _]. exact HP. Qed.

Lemma returns_only_bind {A} (m : M A) (k : A -> M (flow R)) :
  (forall a, returns_only P (k a)) -> returns_only P (bind m k).
Proof.
  intros Hk tr r tr'. unfold bind.
  destruct (m tr) as [[a|e] tr1]; [apply Hk | discriminate].
Qed.

Lemma returns_only_and_then (s1 s2 : M (flow R)) :
  returns_only P s1 -> returns_only P s2 -> returns_only P (s1 ;;; s2).
Proof.
  intros H1 H2 tr r tr'. unfold and_then, bind.
  destruct (s1 tr) as [[[|r1]|e] tr1] eqn:E1.
  - apply H2.
  - intros [= <- _]. exact (H1 _ _ _ E1).
  - discriminate.
Qed.

Lemma returns_only_for_each {X} (xs : list X) (body : X -> M (flow R)) :
  (forall x, returns_only P (body x)) -> returns_only P (for_each xs body).
Proof.
  intros Hb. induction xs as [|x xs IH]; cbn [for_each].
  - apply returns_only_next.
  - apply returns_only_and_then; [apply Hb | exact IH].
Qed.

Lemma returns_only_swallow (s : M (flow R)) :
  returns_only P s -> returns_only P (swallow s).
Proof.
  intros Hs tr r tr'. unfold swallow, try_except.
  destruct (s tr) as [[f|e] tr1] eqn:E.
  - intros [= -> ->]. exact (Hs _ _ _ E).
  - discriminate.
Qed.

Lemma returns_only_if (b : bool) (s1 s2 : M (flow R)) :
  returns_only P s1 -> returns_only P s2 ->
  returns_only P (if b then s1 else s2).
Proof. destruct b; auto. Qed.

End ReturnsOnly.

Create HintDb flows.
#[local] Hint Resolve returns_only_next returns_only_return
  returns_only_and_then returns_only_swallow returns_only_if : flows.

(** A function body that ends in [or_return] under a handler that
    returns never raises, and its value is a returned one or the last. *)
Lemma or_return_total {R} (P : R -> Prop) (s : M (flow R)) (last fallback : R) tr :
  returns_only P s -> P last -> P fallback ->
  exists r tr',
    try_except (or_return s last) (fun _ => ret fallback) tr = (Ok r, tr')
    /\ P r.
Proof.
  intros Hs Hl Hf. unfold try_except, or_return, bind.
  destruct (s tr) as [[[|r]|e] tr1] eqn:E; cbn.
  - exists last, tr1. split; [reflexivity | exact Hl].
  - exists r, tr1. split; [reflexivity | exact (Hs _ _ _ E)].
  - exists fallback, tr1. split; [reflexivity | exact Hf].
Qed.

(** ** Username extraction *)


Section UsernameFacts.

Variable soup : Soup.

Lemma username_from_title_usable :
  returns_only (fun u => usable u = true) (username_from_title soup).
Proof.
  unfold username_from_title. apply returns_only_bind. intros [title|];
    auto with flows.
  destruct (Str.contains _ _); auto with flows.
  destruct (usable _) eqn:E; auto with flows.
Qed.

Lemma username_from_description_usable :
  returns_only (fun u => usable u = true) (username_from_description soup).
Proof.
  unfold username_from_description. apply returns_only_swallow.
  apply returns_only_bind. intros [meta_desc|]; auto with flows.
  destruct (_ && _); auto with flows.
  destruct (usable _) eqn:E; auto with flows.
Qed.

Lemma username_from_og_title_usable :
  returns_only (fun u => usable u = true) (username_from_og_title soup).
Proof.
  unfold username_from_og_title. apply returns_only_swallow.
  apply returns_only_bind. intros [og_title|]; auto with flows.
  destruct (_ && _); auto with flows.
  destruct (usable _) eqn:E; auto with flows.
Qed.

Lemma username_from_selectors_usable :
  returns_only (fun u => usable u = true) (username_from_selectors soup).
Proof.
  unfold username_from_selectors. apply returns_only_for_each.
  intros selector. apply returns_only_swallow.
  apply returns_only_bind. intros [element|]; auto with flows.
  destruct (usable _) eqn:E; auto with flows.
Qed.

Lemma username_from_headings_usable :
  returns_only (fun u => usable u = true) (username_from_headings soup).
Proof.
  unfold username_from_headings. apply returns_only_swallow.
  apply returns_only_bind. intros h1_elements.
  apply returns_only_for_each. intros h1.
  destruct (usable _) eqn:E; cbn [andb]; auto with flows.
Qed.

(** [_extract_username] always returns, and returns a usable name. *)
Lemma extract_username_usable tr :
  exists u tr', _extract_username soup tr = (Ok u, tr') /\ usable u = true.
Proof.
  unfold _extract_username. apply or_return_total; try reflexivity.
  apply returns_only_and_then; [apply username_from_title_usable|].
  apply returns_only_and_then; [apply username_from_description_usable|].
  apply returns_only_and_then; [apply username_from_og_title_usable|].
  apply returns_only_and_then; [apply username_from_selectors_usable|].
  apply username_from_headings_usable.
Qed.

End UsernameFacts.

(** *** The strategies in order *)

Lemma and_then_ext {R} (s1 s1' s2 s2' : M (flow R)) :
  (forall tr, s1 tr = s1' tr) -> (forall tr, s2 tr = s2' tr) ->
  forall tr, (s1 ;;; s2) tr = (s1' ;;; s2') tr.
Proof.
  intros H1 H2 tr. unfold and_then, bind. rewrite H1.
  destruct (s1' tr) as [[[|r]|e] tr1]; [apply H2 | reflexivity | reflexivity].
Qed.

Lemma and_then_next {R} (s : M (flow R)) tr : (s ;;; ret Next) tr = s tr.
Proof.
  unfold and_then, bind. destruct (s tr) as [[[|r]|e] tr1]; reflexivity.
Qed.

Lemma and_then_assoc {R} (s1 s2 s3 : M (flow R)) tr :
  ((s1 ;;; s2) ;;; s3) tr = (s1 ;;; (s2 ;;; s3)) tr.
Proof.
  unfold and_then, bind. destruct (s1 tr) as [[[|r]|e] tr1]; reflexivity.
Qed.

Lemma for_each_app {X R} (xs ys : list X) (body : X -> M (flow R)) tr :
  for_each (xs ++ ys) body tr = (for_each xs body ;;; for_each ys body) tr.
Proof.
  revert tr. induction xs as [|x xs IH]; intros tr; cbn [for_each app].
  - reflexivity.
  - rewrite and_then_assoc. apply and_then_ext; [reflexivity | exact IH].
Qed.

Lemma for_each_ext {X R} (xs : list X) (body body' : X -> M (flow R)) :
  (forall x tr, body x tr = body' x tr) ->
  forall tr, for_each xs body tr = for_each xs body' tr.
Proof.
  intros H. induction xs as [|x xs IH]; intros tr; cbn [for_each].
  - reflexivity.
  - apply and_then_ext; [apply H | exact IH].
Qed.

Lemma for_each_map {X Y R} (f : X -> Y) (xs : list X) (body : Y -> M (flow R)) tr :
  for_each (map f xs) body tr = for_each xs (fun x => body (f x)) tr.
Proof.
  revert tr. induction xs as [|x xs IH]; intros tr; cbn [for_each map].
  - reflexivity.
  - apply and_then_ext; [reflexivity | exact IH].
Qed.

Section UsernameOrder.

Variable soup : Soup.

Lemma title_attempt tr :
  username_from_title soup tr = attempt soup title_strategy tr.
Proof.
  unfold username_from_title, attempt, find, bind, emit, ret.
  cbn [pick ask title_strategy].
  destruct (soup_find soup "title") as [title|]; [|reflexivity].
  destruct (Str.contains _ _); [|reflexivity].
  unfold keep_usable. destruct (usable _); reflexivity.
Qed.

Lemma description_attempt tr :
  username_from_description soup tr = attempt soup description_strategy tr.
Proof.
  unfold username_from_description, swallow, try_except, attempt, find_attr,
    bind, emit, ret.
  cbn [pick ask description_strategy].
  destruct (soup_find_attr soup "meta" "name" "description") as [meta_desc|];
    [|reflexivity].
  destruct (_ && _); [|reflexivity].
  unfold keep_usable. destruct (usable _); reflexivity.
Qed.

Lemma og_title_attempt tr :
  username_from_og_title soup tr = attempt soup og_title_strategy tr.
Proof.
  unfold username_from_og_title, swallow, try_except, attempt, find_attr,
    bind, emit, ret.
  cbn [pick ask og_title_strategy].
  destruct (soup_find_attr soup "meta" "property" "og:title") as [og_title|];
    [|reflexivity].
  destruct (_ && _); [|reflexivity].
  unfold keep_usable. destruct (usable _); reflexivity.
Qed.

Lemma selectors_attempt tr :
  username_from_selectors soup tr
  = for_each (map selector_strategy selectors) (attempt soup) tr.
Proof.
  unfold username_from_selectors. rewrite for_each_map.
  apply for_each_ext. clear tr. intros selector tr.
  unfold swallow, try_except, attempt, select_one, bind, emit, ret.
  cbn [pick ask selector_strategy].
  destruct (soup_select_one soup selector) as [element|]; [|reflexivity].
  unfold keep_usable. destruct (usable _); reflexivity.
Qed.

Lemma headings_loop h1_elements tr :
  for_each h1_elements (fun h1 =>
    let text := Str.strip (tag_get_text h1) in
    if usable text && negb (has_stop_word text)
    then ret (Return text) else ret Next) tr
  = (Ok (to_flow (first_heading h1_elements)), tr).
Proof.
  induction h1_elements as [|h1 rest IH]; cbn [for_each first_heading].
  - reflexivity.
  - unfold and_then, bind. cbv zeta.
    destruct (usable _ && negb _); [reflexivity | exact IH].
Qed.

Lemma headings_attempt tr :
  username_from_headings soup tr = attempt soup heading_strategy tr.
Proof.
  unfold username_from_headings, swallow, try_except, attempt, find_all.
  unfold bind at 1. unfold bind at 1. unfold emit, ret at 1.
  rewrite headings_loop. reflexivity.
Qed.

Lemma attempts_first_match ss tr :
  for_each ss (attempt soup) tr
  = (Ok (to_flow (fst (first_match soup ss))),
     (tr ++ map EQuery (snd (first_match soup ss)))%list).
Proof.
  revert tr. induction ss as [|s ss IH]; intros tr;
    cbn [for_each first_match].
  - cbn. rewrite app_nil_r. reflexivity.
  - unfold and_then, bind, attempt at 1.
    destruct (pick s soup) as [u|]; cbn [to_flow].
    + reflexivity.
    + rewrite IH. destruct (first_match soup ss) as [r qs]. cbn.
      rewrite <- app_assoc. reflexivity.
Qed.

Lemma username_blocks_attempts tr :
  (username_from_title soup ;;;
   username_from_description soup ;;;
   username_from_og_title soup ;;;
   username_from_selectors soup ;;;
   username_from_headings soup) tr
  = for_each username_strategies (attempt soup) tr.
Proof.
  unfold username_strategies. cbn [app for_each].
  revert tr. apply and_then_ext; [apply title_attempt|].
  apply and_then_ext; [apply description_attempt|].
  apply and_then_ext; [apply og_title_attempt|].
  intros tr. rewrite for_each_app. revert tr.
  apply and_then_ext; [apply selectors_attempt|].
  intros tr. cbn [for_each]. rewrite and_then_next. apply headings_attempt.
Qed.

End UsernameOrder.

(** C6. Username extraction runs the strategies title, meta
    description, og:title, the selector list and the headings in this
    order: the result is the candidate of the first strategy that has a
    usable one (non-empty, shorter than 50 characters), "Unknown" when
    none has, and the document is asked nothing beyond the question of
    the winning strategy.  In particular a page titled "Jane - Roblox"
    gives "Jane" after the title question alone, whatever its og:title
    is. *)
Theorem extract_username_first_match (soup : Soup) (tr : trace) :
  (_extract_username soup tr
   = (Ok (match fst (first_match soup username_strategies) with
          | Some u => u
          | None => "Unknown"
          end),
      (tr ++ map EQuery (snd (first_match soup username_strategies)))%list))
  /\ (forall title,
        soup_find soup "title" = Some title ->
        tag_get_text title = "Jane - Roblox" ->
        _extract_username soup tr = (Ok "Jane", (tr ++ [EQuery (QFind "title")])%list)).
Proof.
  assert (E : _extract_username soup tr
              = (Ok (match fst (first_match soup username_strategies) with
                     | Some u => u
                     | None => "Unknown"
                     end),
                 (tr ++ map EQuery
                          (snd (first_match soup username_strategies)))%list)).
  { unfold _extract_username, try_except, or_return.
    unfold bind at 1. rewrite username_blocks_attempts, attempts_first_match.
    destruct (fst (first_match soup username_strategies)); reflexivity. }
  split; [exact E|].
  intros title Hfind Htext. rewrite E.
  unfold username_strategies. cbn [app first_match pick title_strategy].
  rewrite Hfind, Htext. vm_compute. reflexivity.
Qed.

Lemma extract_username_first_match_witness :
  _extract_username jane_page [] = (Ok "Jane", [EQuery (QFind "title")]).
Proof.
  exact (proj2 (extract_username_first_match jane_page [])
           {| tag_get_text := "Jane - Roblox";
              tag_string := Some "Jane - Roblox";
              tag_attrs := [] |} eq_refl eq_refl).
Defined.

(** without its title, the page of Jane gives the name of its og:title *)
Example og_title_without_title :
  fst (_extract_username
         {| soup_find := fun _ => None;
            soup_find_attr := soup_find_attr jane_page;
            soup_find_all := fun _ => [];
            soup_select_one := fun _ => None;
            soup_select := fun _ => [];
            soup_get_text := "" |} [])
  = Ok "Someone Else".
Proof. vm_compute. reflexivity. Qed.

(** ** The matches of the follower-key patterns are digit strings *)

Module ReFacts.
Import Re.

Lemma ends_in_seq Q r1 r2 : ends_in Q r2 -> ends_in Q (Seq r1 r2).
Proof.
  intros H ci st st' Hin. cbn [run] in Hin.
  apply in_flat_map in Hin as (st1 & _ & Hin). exact (H _ _ _ Hin).
Qed.

Lemma take_app g r :
  Str.take (String.length (g ++ r) - String.length r) (g ++ r) = g.
Proof.
  induction g as [|c g IH]; cbn [append String.length].
  - rewrite Nat.sub_diag. destruct r; reflexivity.
  - assert (E : (String.length (g ++ r) >= String.length r)%nat).
    { clear. induction g; cbn [append String.length]; lia. }
    replace (S (String.length (g ++ r)) - String.length r)%nat
      with (S (String.length (g ++ r) - String.length r)) by lia.
    cbn [Str.take]. rewrite IH. reflexivity.
Qed.

Lemma eat_digit st st' :
  In st' (eat Str.is_digit st) ->
  exists c, Str.is_digit c = true /\ rest st = String c (rest st').
Proof.
  unfold eat. destruct (rest st) as [|c s] eqn:E; [intros []|].
  destruct (Str.is_digit c) eqn:Hc; [|intros []].
  intros [<-|[]]. exists c. split; [exact Hc | reflexivity].
Qed.

Lemma star_digits ci fuel st st' :
  In st' (star_loop (run digit ci) fuel st) ->
  exists g, Str.forallb Str.is_digit g = true /\ rest st = g ++ rest st'.
Proof.
  revert st. induction fuel as [|fuel IH]; intros st; cbn [star_loop].
  - intros [<-|[]]. exists "". split; reflexivity.
  - intros Hin. apply in_app_or in Hin as [Hin|[<-|[]]].
    + apply in_flat_map in Hin as (st1 & H1 & Hin).
      destruct (shorter st1 st); [|destruct Hin].
      cbn [run digit] in H1. apply eat_digit in H1 as (c & Hc & E1).
      apply IH in Hin as (g & Hg & E2).
      exists (String c g). split.
      * cbn [Str.forallb]. rewrite Hc, Hg. reflexivity.
      * rewrite E1, E2. reflexivity.
    + exists "". split; reflexivity.
Qed.

(** group 1 of [(\d+)] is a non-empty string of digits *)
Lemma digits_group_ends :
  ends_in (fun st => digit_string (group1 st)) (Group (Plus digit)).
Proof.
  intros ci st st' Hin. cbn [run Plus] in Hin.
  apply in_map_iff in Hin as (st2 & <- & Hin).
  apply in_flat_map in Hin as (st1 & H1 & Hin).
  cbn [run digit] in H1. apply eat_digit in H1 as (c & Hc & E1).
  cbn [run] in Hin. apply star_digits in Hin as (g & Hg & E2).
  unfold group1, consumed. cbn [cap rest].
  rewrite E1, E2.
  change (String c (g ++ rest st2)) with (String c g ++ rest st2).
  rewrite take_app. split; [reflexivity|].
  cbn [Str.forallb]. rewrite Hc, Hg. reflexivity.
Qed.

Lemma findall_from_ends Q r fuel p s m :
  ends_in Q r -> In m (findall_from r fuel p s) ->
  exists st, Q st /\ m = group1 st.
Proof.
  intros Hr. revert p s. induction fuel as [|fuel IH]; intros p s;
    cbn [findall_from]; [intros []|].
  assert (Hskip : In m match s with
                       | EmptyString => []
                       | String c s' => findall_from r fuel (Some c) s'
                       end -> exists st, Q st /\ m = group1 st).
  { destruct s; [intros [] | apply IH]. }
  unfold match_at.
  destruct (run r false {| prev := p; rest := s; cap := None |})
    as [|st sts] eqn:E; cbn [hd_error]; [exact Hskip|].
  assert (HQ : Q st).
  { apply (Hr false {| prev := p; rest := s; cap := None |}).
    rewrite E. left. reflexivity. }
  destruct (String.length (rest st) <? String.length s)%nat.
  - intros [<-|Hin]; [eauto | eapply IH; eassumption].
  - intros [<-|Hin]; [eauto | auto].
Qed.

(** Every match that [findall] reports for a follower-key pattern is a
    non-empty string of digits, which [int] converts. *)
Lemma follower_match_digits pattern s m :
  In pattern follower_patterns -> In m (findall pattern s) ->
  digit_string m.
Proof.
  intros Hp Hm.
  assert (Hends : ends_in (fun st => digit_string (group1 st)) pattern).
  { unfold follower_patterns in Hp. cbn [In] in Hp.
    decompose [or] Hp; try contradiction; subst pattern;
      unfold json_value_tail, js_value_tail; cbn [seqs];
      repeat apply ends_in_seq; apply digits_group_ends. }
  unfold findall in Hm.
  destruct (findall_from_ends _ _ _ _ _ _ Hends Hm) as (st & HQ & ->).
  exact HQ.
Qed.

Lemma digit_string_int m :
  digit_string m -> Num.py_int m = Ok (Num.digits_value 0 m).
Proof.
  intros [Hn Hd]. unfold Num.py_int. rewrite Hn, Hd. reflexivity.
Qed.

End ReFacts.

(** ** Follower-count extraction *)

Lemma returns_only_lift {A R} (P : R -> Prop) (o : outcome A)
      (k : A -> M (flow R)) :
  (forall a, o = Ok a -> returns_only P (k a)) ->
  returns_only P (bind (lift o) k).
Proof.
  intros Hk tr r tr'. unfold bind, lift.
  destruct o as [a|e]; [apply (Hk a eq_refl) | discriminate].
Qed.

(** *** Sorting *)

Lemma insert_desc_in x l y : In y (insert_desc x l) <-> y = x \/ In y l.
Proof.
  induction l as [|z l IH]; cbn [insert_desc In].
  - intuition.
  - destruct (z <=? x); cbn [In]; [intuition|]. rewrite IH. intuition.
Qed.

Lemma sort_desc_in l y : In y (sort_desc l) <-> In y l.
Proof.
  induction l as [|x l IH]; cbn [sort_desc In]; [tauto|].
  rewrite insert_desc_in, IH. intuition.
Qed.

Lemma insert_desc_descending x l :
  descending l -> descending (insert_desc x l).
Proof.
  unfold descending. induction 1 as [|z l Hl IH Hz]; cbn [insert_desc].
  - repeat constructor.
  - destruct (z <=? x) eqn:E.
    + apply Z.leb_le in E. constructor; [constructor; assumption|].
      constructor; [exact E|].
      rewrite Forall_forall in *. intros y Hy. specialize (Hz y Hy). lia.
    + apply Z.leb_gt in E. constructor; [exact IH|].
      rewrite Forall_forall in *. intros y Hy.
      apply insert_desc_in in Hy as [->|Hy]; [lia | auto].
Qed.

Lemma sort_desc_descending l : descending (sort_desc l).
Proof.
  induction l as [|x l IH]; cbn [sort_desc].
  - constructor.
  - apply insert_desc_descending, IH.
Qed.

(** the head of the sorted list is an element and bounds the others *)
Lemma sort_desc_hd l x :
  In x l ->
  In (hd 0 (sort_desc l)) l /\ forall y, In y l -> y <= hd 0 (sort_desc l).
Proof.
  intros Hx. pose proof (sort_desc_descending l) as Hs.
  apply sort_desc_in in Hx.
  destruct (sort_desc l) as [|h t] eqn:E; [destruct Hx|].
  cbn [hd]. split.
  - apply sort_desc_in. rewrite E. left. reflexivity.
  - intros y Hy. apply sort_desc_in in Hy. rewrite E in Hy.
    destruct Hy as [<-|Hy]; [lia|].
    inversion Hs as [|? ? _ Hall]; subst.
    rewrite Forall_forall in Hall. auto.
Qed.

(** *** The heuristic *)

Lemma fold_each_collect {X} (f : X -> list Z)
      (body : list Z -> X -> M (list Z)) xs :
  (forall acc x tr l tr',
      body acc x tr = (Ok l, tr') -> l = (acc ++ f x)%list /\ tr' = tr) ->
  forall acc tr l tr',
    fold_each xs acc body tr = (Ok l, tr') ->
    l = (acc ++ flat_map f xs)%list /\ tr' = tr.
Proof.
  intros Hb. induction xs as [|x xs IH]; intros acc tr l tr';
    cbn [fold_each flat_map].
  - intros [= <- <-]. rewrite app_nil_r. auto.
  - unfold bind. destruct (body acc x tr) as [[acc1|e] tr1] eqn:E;
      [|discriminate].
    apply Hb in E as [-> ->]. intros H. apply IH in H as [-> ->].
    rewrite <- app_assoc. auto.
Qed.

Lemma potential_followers_candidates page_text tr l tr' :
  potential_followers page_text tr = (Ok l, tr') ->
  l = candidates page_text /\ tr' = tr.
Proof.
  unfold potential_followers, candidates. intros H.
  apply (fold_each_collect
           (fun pattern => flat_map candidate (Re.findall pattern page_text)))
    in H; [exact H|].
  clear. intros acc pattern tr l tr' H.
  apply (fold_each_collect candidate) in H; [exact H|].
  clear. intros acc m tr l tr'. unfold bind, lift, candidate.
  destruct (_parse_number m) as [n|e]; [|discriminate].
  destruct (reasonable n); intros [= <- <-]; rewrite ?app_nil_r; auto.
Qed.

Lemma candidates_reasonable page_text c :
  In c (candidates page_text) -> 0 <= c <= 100000000.
Proof.
  unfold candidates. intros H.
  apply in_flat_map in H as (pattern & _ & H).
  apply in_flat_map in H as (m & _ & H).
  unfold candidate in H. destruct (_parse_number m) as [n|e]; [|destruct H].
  destruct (reasonable n) eqn:E; [|destruct H].
  destruct H as [<-|[]]. unfold reasonable in E.
  apply andb_prop in E as [E1 E2]. apply Z.leb_le in E1, E2. lia.
Qed.

(** what the heuristic returns, when it returns *)
Lemma followers_heuristic_returns page_text tr v tr' :
  followers_heuristic page_text tr = (Ok (Return v), tr') ->
  looks_like_profile page_text = true
  /\ 0 <= v <= 100000000
  /\ In v (candidates page_text)
  /\ (forall c, In c (candidates page_text) -> c <= v).
Proof.
  unfold followers_heuristic.
  destruct (looks_like_profile page_text); [|discriminate].
  unfold bind.
  destruct (potential_followers page_text tr) as [[l|e] tr1] eqn:E;
    [|discriminate].
  apply potential_followers_candidates in E as [-> ->].
  pose proof (sort_desc_hd (candidates page_text)) as Hhd.
  pose proof (candidates_reasonable page_text) as Hrange.
  destruct (candidates page_text) as [|c0 cs]; [discriminate|].
  intros [= <- <-].
  destruct (Hhd c0 (or_introl eq_refl)) as [Hin Hmax].
  split; [reflexivity|].
  split; [exact (Hrange _ Hin)|].
  split; assumption.
Qed.

(** without the two words in the page text, [_extract_followers] is its
    first four strategies *)
Lemma heuristic_skipped soup tr :
  looks_like_profile (soup_get_text soup) = false ->
  _extract_followers soup tr = extract_followers_first_four soup tr.
Proof.
  intros Hgate.
  assert (E : forall tr0,
             (followers_from_scripts soup ;;;
              followers_from_selectors soup ;;;
              (page_text <- get_text soup ;;
               (followers_from_text page_text ;;;
                followers_from_context page_text ;;;
                followers_heuristic page_text))) tr0
             = (followers_from_scripts soup ;;;
                followers_from_selectors soup ;;;
                (page_text <- get_text soup ;;
                 (followers_from_text page_text ;;;
                  followers_from_context page_text))) tr0).
  { apply and_then_ext; [reflexivity|].
    apply and_then_ext; [reflexivity|].
    intros tr0. unfold get_text, bind, emit, ret.
    apply and_then_ext; [reflexivity|].
    intros tr1.
    transitivity ((followers_from_context (soup_get_text soup) ;;; ret Next)
                    tr1).
    - apply and_then_ext; [reflexivity|].
      intros tr2. unfold followers_heuristic. rewrite Hgate. reflexivity.
    - apply and_then_next. }
  unfold _extract_followers, extract_followers_first_four, try_except,
    or_none.
  unfold bind at 1 3. rewrite E. reflexivity.
Qed.

(** C7. The heuristic last resort does nothing unless the page text
    holds both "profile" and "roblox" (in any case): with either word
    missing the block falls through, and [_extract_followers] is its
    first four strategies.  A value that the heuristic returns lies in
    [0, 100000000] and is the largest of the candidates, the in-range
    normalised values of all comma-grouped and all k/m/b-suffixed
    numbers of the page text. *)
Theorem heuristic_gate_and_maximum (page_text : string) (tr : trace) :
  (looks_like_profile page_text = false ->
   followers_heuristic page_text tr = (Ok Next, tr)
   /\ forall soup,
        soup_get_text soup = page_text ->
        _extract_followers soup tr = extract_followers_first_four soup tr)
  /\ (forall v tr',
        followers_heuristic page_text tr = (Ok (Return v), tr') ->
        looks_like_profile page_text = true
        /\ 0 <= v <= 100000000
        /\ In v (candidates page_text)
        /\ (forall c, In c (candidates page_text) -> c <= v)).
Proof.
  split.
  - intros Hgate. split.
    + unfold followers_heuristic. rewrite Hgate. reflexivity.
    + intros soup <-. apply heuristic_skipped, Hgate.
  - intros v tr'. apply followers_heuristic_returns.
Qed.

Lemma heuristic_gate_and_maximum_witness :
  followers_heuristic "1,234 and 2.5k" [] = (Ok Next, [])
  /\ followers_heuristic heuristic_sample [] = (Ok (Return 2500), [])
  /\ looks_like_profile heuristic_sample = true
  /\ 0 <= 2500 <= 100000000
  /\ In 2500 (candidates heuristic_sample)
  /\ (forall c, In c (candidates heuristic_sample) -> c <= 2500).
Proof.
  split.
  - apply (proj1 (heuristic_gate_and_maximum "1,234 and 2.5k" [])).
    vm_compute; reflexivity.
  - split; [vm_compute; reflexivity|].
    apply (proj2 (heuristic_gate_and_maximum heuristic_sample []) 2500 []).
    vm_compute; reflexivity.
Defined.

(** *** The script scan *)

Lemma followers_in_patterns content patterns tr :
  incl patterns Re.follower_patterns ->
  for_each patterns (fun pattern =>
    match Re.findall pattern content with
    | first :: _ => n <- lift (Num.py_int first) ;; ret (Return n)
    | [] => ret Next
    end) tr
  = (Ok (to_flow (option_map count_of
                    (first_some (pattern_match content) patterns))), tr).
Proof.
  induction patterns as [|p ps IH]; intros Hincl;
    cbn [for_each first_some]; [reflexivity|].
  unfold and_then, bind at 1. unfold pattern_match at 1.
  destruct (Re.findall p content) as [|first others] eqn:E; cbn [hd_error].
  - apply IH. intros q Hq. apply Hincl. right. exact Hq.
  - assert (Hd : Re.digit_string first).
    { apply (ReFacts.follower_match_digits p content).
      - apply Hincl. left. reflexivity.
      - rewrite E. left. reflexivity. }
    unfold bind, lift. rewrite (ReFacts.digit_string_int _ Hd). reflexivity.
Qed.

Lemma followers_in_script_first content tr :
  followers_in_script content tr
  = (Ok (to_flow (option_map count_of
                    (first_some (pattern_match content) Re.follower_patterns))),
     tr).
Proof. apply followers_in_patterns, incl_refl. Qed.

Lemma followers_in_scripts_first scripts tr :
  for_each scripts (fun script =>
    match script_content script with
    | Some content => followers_in_script content
    | None => ret Next
    end) tr
  = (Ok (to_flow (option_map count_of (script_then_pattern scripts))), tr).
Proof.
  unfold script_then_pattern.
  induction scripts as [|script scripts IH]; cbn [for_each first_some];
    [reflexivity|].
  unfold and_then, bind.
  destruct (script_content script) as [content|]; [|exact IH].
  rewrite followers_in_script_first.
  destruct (first_some (pattern_match content) Re.follower_patterns);
    [reflexivity | exact IH].
Qed.

Lemma followers_from_scripts_first soup tr :
  followers_from_scripts soup tr
  = (Ok (to_flow (option_map count_of
                    (script_then_pattern (soup_find_all soup "script")))),
     (tr ++ [EQuery (QFindAll "script")])%list).
Proof.
  unfold followers_from_scripts, find_all.
  unfold bind at 1. unfold bind at 1. unfold emit, ret at 1.
  apply followers_in_scripts_first.
Qed.



Example two_script_run :
  _extract_followers two_script_page []
  = (Ok (Some 5), [EQuery (QFindAll "script")])
  /\ script_then_pattern (soup_find_all two_script_page "script") = Some "5"
  /\ pattern_then_script (soup_find_all two_script_page "script") = Some "7".
Proof. repeat split; vm_compute; reflexivity. Qed.


(** *** Every extracted count is non-negative *)

Section FollowerFacts.

Variable soup : Soup.

Lemma first_count_nonneg matches : returns_only nonneg (first_count matches).
Proof.
  unfold first_count. apply returns_only_for_each. intros m.
  apply returns_only_lift. intros n _.
  destruct (0 <=? n) eqn:E; auto with flows.
  apply returns_only_return, Z.leb_le, E.
Qed.

Lemma followers_from_scripts_nonneg :
  returns_only nonneg (followers_from_scripts soup).
Proof.
  unfold followers_from_scripts. apply returns_only_bind. intros scripts.
  apply returns_only_for_each. intros script.
  destruct (script_content script) as [content|]; auto with flows.
  unfold followers_in_script. apply returns_only_for_each. intros pattern.
  destruct (Re.findall pattern content) as [|first others]; auto with flows.
  apply returns_only_lift. intros n Hn.
  apply returns_only_return. exact (NumFacts.py_int_nonneg _ _ Hn).
Qed.

Lemma followers_from_selectors_nonneg :
  returns_only nonneg (followers_from_selectors soup).
Proof.
  unfold followers_from_selectors. apply returns_only_for_each.
  intros selector. apply returns_only_bind. intros elements.
  apply returns_only_for_each. intros element. cbv zeta.
  destruct (_ && _); auto with flows.
  apply returns_only_lift. intros n _.
  destruct (0 <=? n) eqn:E; auto with flows.
  apply returns_only_return, Z.leb_le, E.
Qed.

Lemma followers_from_text_nonneg page_text :
  returns_only nonneg (followers_from_text page_text).
Proof.
  unfold followers_from_text. apply returns_only_for_each.
  intros pattern. apply first_count_nonneg.
Qed.

Lemma followers_from_context_nonneg page_text :
  returns_only nonneg (followers_from_context page_text).
Proof.
  unfold followers_from_context. apply returns_only_for_each.
  intros pattern. apply first_count_nonneg.
Qed.

Lemma followers_heuristic_nonneg page_text :
  returns_only nonneg (followers_heuristic page_text).
Proof.
  intros tr v tr' H.
  apply followers_heuristic_returns in H.
  unfold nonneg. lia.
Qed.

Lemma or_none_total {R} (P : R -> Prop) (s : M (flow R)) tr :
  returns_only P s ->
  exists r tr',
    try_except (or_none s) (fun _ => ret None) tr = (Ok r, tr')
    /\ forall n, r = Some n -> P n.
Proof.
  intros Hs. unfold try_except, or_none, bind.
  destruct (s tr) as [[[|r]|e] tr1] eqn:E; cbn.
  - exists None, tr1. split; [reflexivity | discriminate].
  - exists (Some r), tr1. split; [reflexivity|].
    intros n [= <-]. exact (Hs _ _ _ E).
  - exists None, tr1. split; [reflexivity | discriminate].
Qed.

(** [_extract_followers] always returns, and a count that it returns is
    non-negative. *)
Lemma extract_followers_nonneg tr :
  exists r tr',
    _extract_followers soup tr = (Ok r, tr')
    /\ forall n, r = Some n -> 0 <= n.
Proof.
  unfold _extract_followers. apply (or_none_total nonneg).
  apply returns_only_and_then; [apply followers_from_scripts_nonneg|].
  apply returns_only_and_then; [apply followers_from_selectors_nonneg|].
  apply returns_only_bind. intros page_text.
  apply returns_only_and_then; [apply followers_from_text_nonneg|].
  apply returns_only_and_then; [apply followers_from_context_nonneg|].
  apply followers_heuristic_nonneg.
Qed.

End FollowerFacts.

(** ** Traces only grow *)

Lemma extends_ret {A} (a : A) : extends (ret a).
Proof. intros tr. exists []. cbn. rewrite app_nil_r. reflexivity. Qed.

Lemma extends_lift {A} (o : outcome A) : extends (lift o).
Proof. intros tr. exists []. cbn. rewrite app_nil_r. reflexivity. Qed.

Lemma extends_raise {A} (e : exn) : extends (@raise A e).
Proof. intros tr. exists []. cbn. rewrite app_nil_r. reflexivity. Qed.

Lemma extends_emit ev : extends (emit ev).
Proof. intros tr. exists [ev]. reflexivity. Qed.

Lemma extends_bind {A B} (m : M A) (k : A -> M B) :
  extends m -> (forall a, extends (k a)) -> extends (bind m k).
Proof.
  intros Hm Hk tr. unfold bind. destruct (Hm tr) as [s1 E1].
  destruct (m tr) as [[a|e] tr1]; cbn [snd] in *; subst tr1.
  - destruct (Hk a (tr ++ s1)%list) as [s2 E2]. exists (s1 ++ s2)%list.
    rewrite E2, app_assoc. reflexivity.
  - exists s1. reflexivity.
Qed.

Lemma extends_try_except {A} (m : M A) (h : exn -> M A) :
  extends m -> (forall e, extends (h e)) -> extends (try_except m h).
Proof.
  intros Hm Hh tr. unfold try_except. destruct (Hm tr) as [s1 E1].
  destruct (m tr) as [[a|e] tr1]; cbn [snd] in *; subst tr1.
  - exists s1. reflexivity.
  - destruct (Hh e (tr ++ s1)%list) as [s2 E2]. exists (s1 ++ s2)%list.
    rewrite E2, app_assoc. reflexivity.
Qed.

Lemma extends_and_then {R} (s1 s2 : M (flow R)) :
  extends s1 -> extends s2 -> extends (s1 ;;; s2).
Proof.
  intros H1 H2. unfold and_then. apply extends_bind; [exact H1|].
  intros [|r]; [exact H2 | apply extends_ret].
Qed.

Lemma extends_for_each {X R} (xs : list X) (body : X -> M (flow R)) :
  (forall x, extends (body x)) -> extends (for_each xs body).
Proof.
  intros Hb. induction xs as [|x xs IH]; cbn [for_each].
  - apply extends_ret.
  - apply extends_and_then; [apply Hb | exact IH].
Qed.

Lemma extends_fold_each {X A} (xs : list X) (body : A -> X -> M A) :
  (forall acc x, extends (body acc x)) ->
  forall acc, extends (fold_each xs acc body).
Proof.
  intros Hb. induction xs as [|x xs IH]; intros acc; cbn [fold_each].
  - apply extends_ret.
  - apply extends_bind; [apply Hb | exact IH].
Qed.

Lemma extends_swallow {R} (s : M (flow R)) : extends s -> extends (swallow s).
Proof.
  intros Hs. apply extends_try_except; [exact Hs|].
  intros e. apply extends_ret.
Qed.

Lemma extends_or_return {R} (s : M (flow R)) (last : R) :
  extends s -> extends (or_return s last).
Proof.
  intros Hs. apply extends_bind; [exact Hs|]. intros [|r]; apply extends_ret.
Qed.

Lemma extends_or_none {R} (s : M (flow R)) : extends s -> extends (or_none s).
Proof.
  intros Hs. apply extends_bind; [exact Hs|]. intros [|r]; apply extends_ret.
Qed.

Lemma extends_if {A} (b : bool) (m1 m2 : M A) :
  extends m1 -> extends m2 -> extends (if b then m1 else m2).
Proof. destruct b; auto. Qed.

Lemma extends_query soup :
  (forall name, extends (find soup name))
  /\ (forall name key val, extends (find_attr soup name key val))
  /\ (forall name, extends (find_all soup name))
  /\ (forall selector, extends (select_one soup selector))
  /\ (forall selector, extends (select soup selector))
  /\ extends (get_text soup).
Proof.
  repeat split; intros;
    (apply extends_bind; [apply extends_emit | intros; apply extends_ret]).
Qed.

Ltac extends_step :=
  lazymatch goal with
  | |- extends (ret _) => apply extends_ret
  | |- extends (lift _) => apply extends_lift
  | |- extends (raise _) => apply extends_raise
  | |- extends (emit _) => apply extends_emit
  | |- extends (find ?soup _) => apply (proj1 (extends_query soup))
  | |- extends (find_attr ?soup _ _ _) =>
      apply (proj1 (proj2 (extends_query soup)))
  | |- extends (find_all ?soup _) =>
      apply (proj1 (proj2 (proj2 (extends_query soup))))
  | |- extends (select_one ?soup _) =>
      apply (proj1 (proj2 (proj2 (proj2 (extends_query soup)))))
  | |- extends (select ?soup _) =>
      apply (proj1 (proj2 (proj2 (proj2 (proj2 (extends_query soup))))))
  | |- extends (get_text ?soup) =>
      apply (proj2 (proj2 (proj2 (proj2 (proj2 (extends_query soup))))))
  | |- extends (for_each _ _) => apply extends_for_each
  | |- extends (fold_each _ _ _) => apply extends_fold_each
  | |- extends (swallow _) => apply extends_swallow
  | |- extends (or_return _ _) => apply extends_or_return
  | |- extends (or_none _) => apply extends_or_none
  | |- extends (try_except _ _) => apply extends_try_except
  | |- extends (and_then _ _) => apply extends_and_then
  | |- extends (bind _ _) => apply extends_bind
  | |- extends (match ?x with _ => _ end) => destruct x
  | |- extends (let _ := _ in _) => cbv zeta
  | |- forall _, _ => intro
  end.

Lemma extract_username_extends soup : extends (_extract_username soup).
Proof.
  unfold _extract_username, username_from_title, username_from_description,
    username_from_og_title, username_from_selectors, username_from_headings.
  repeat extends_step.
Qed.

Lemma extract_followers_extends soup : extends (_extract_followers soup).
Proof.
  unfold _extract_followers, followers_from_scripts, followers_in_script,
    followers_from_selectors, followers_from_text, followers_from_context,
    followers_heuristic, potential_followers, first_count.
  repeat extends_step.
Qed.

(** ** The structured lookup *)

Lemma requests_sent_app tr tr' :
  requests_sent (tr ++ tr')%list = (requests_sent tr + requests_sent tr')%nat.
Proof.
  unfold requests_sent. rewrite filter_app, length_app. reflexivity.
Qed.

Lemma requests_sent_get tr url :
  requests_sent (tr ++ [EGet url])%list = S (requests_sent tr).
Proof. rewrite requests_sent_app. cbn. lia. Qed.

Section ApiFacts.

Variable W : World.
Variable uid : Z.

(** The identity call sends one request and never raises. *)
Lemma api_username_runs tr :
  exists v,
    _get_username_from_api W uid tr
    = (Ok v, (tr ++ [EGet (users_url uid)])%list)
    /\ (forall e, respond W (requests_sent tr) (users_url uid) = Raise e ->
        v = VNone).
Proof.
  unfold _get_username_from_api, try_except, bind, session_get.
  destruct (respond W (requests_sent tr) (users_url uid)) as [response|e].
  - destruct (status_code response =? 200).
    + unfold lift, py_get.
      destruct (json response) as [[| | | | | |d]|e]; cbn;
        eexists; (split; [reflexivity | discriminate]).
    + destruct (status_code response =? 404); cbn;
        eexists; (split; [reflexivity | discriminate]).
  - cbn. exists VNone. split; reflexivity.
Qed.

(** The follower-count call never raises: every way through it. *)
Lemma api_followers_runs tr :
  let url := followers_url uid in
  let n := requests_sent tr in
  match respond W n url with
  | Raise _ =>
      _get_followers_from_api W uid tr = (Ok VNone, (tr ++ [EGet url])%list)
  | Ok response =>
      if status_code response =? 200 then
        _get_followers_from_api W uid tr
        = (Ok (json_field response "count" (VInt 0)), (tr ++ [EGet url])%list)
      else if status_code response =? 404 then
        _get_followers_from_api W uid tr = (Ok VNone, (tr ++ [EGet url])%list)
      else if status_code response =? 429 then
        _get_followers_from_api W uid tr
        = (Ok (retry_value (respond W (S n) url)),
           (tr ++ [EGet url; ESleep 2; EGet url])%list)
      else
        _get_followers_from_api W uid tr = (Ok VNone, (tr ++ [EGet url])%list)
  end.
Proof.
  intros url n. subst url n.
  assert (Hsecond : forall ev,
             requests_sent
               ((tr ++ [EGet (followers_url uid)]) ++ [ev])%list
             = (S (requests_sent tr) + requests_sent [ev])%nat).
  { intros ev. rewrite !requests_sent_app. cbn. lia. }
  destruct (respond W (requests_sent tr) (followers_url uid))
    as [response|e] eqn:E1.
  2: { unfold _get_followers_from_api, try_except, bind, session_get.
       cbv zeta. rewrite E1. reflexivity. }
  destruct (status_code response =? 200) eqn:E200.
  { unfold _get_followers_from_api, try_except, bind, session_get.
    cbv zeta. rewrite E1, E200.
    unfold lift, json_field, py_get.
    destruct (json response) as [[| | | | | |d]|e]; reflexivity. }
  destruct (status_code response =? 404) eqn:E404.
  { unfold _get_followers_from_api, try_except, bind, session_get.
    cbv zeta. rewrite E1, E200, E404. reflexivity. }
  destruct (status_code response =? 429) eqn:E429.
  2: { unfold _get_followers_from_api, try_except, bind, session_get.
       cbv zeta. rewrite E1, E200, E404, E429. reflexivity. }
  unfold _get_followers_from_api, try_except, bind, session_get, sleep, emit.
  cbv zeta. rewrite E1, E200, E404, E429.
  rewrite Hsecond. cbn [requests_sent filter is_get List.length Nat.add].
  rewrite Nat.add_0_r, <- !app_assoc. cbn [app].
  unfold retry_value.
  destruct (respond W (S (requests_sent tr)) (followers_url uid))
    as [retry|e]; [|reflexivity].
  destruct (status_code retry =? 200); [|reflexivity].
  unfold lift, json_field, py_get.
  destruct (json retry) as [[| | | | | |d]|e]; reflexivity.
Qed.

End ApiFacts.

(** C5. When the follower-count endpoint answers 429, the lookup
    sleeps 2 seconds and asks once more, and that is all it sends: the
    result is the count field of the retry's JSON when the retry answers
    200 (0 when the field is missing), and no count when the retry
    answers any other status or fails. *)
Theorem rate_limit_retries_once (W : World) (uid : Z) (tr : trace)
        (first : Response) :
  respond W (requests_sent tr) (followers_url uid) = Ok first ->
  status_code first = 429 ->
  let url := followers_url uid in
  let answer := respond W (S (requests_sent tr)) url in
  _get_followers_from_api W uid tr
  = (Ok (retry_value answer), (tr ++ [EGet url; ESleep 2; EGet url])%list)
  /\ (forall retry d,
        answer = Ok retry -> status_code retry = 200 ->
        json retry = Ok (VDict d) ->
        retry_value answer = dict_get d "count" (VInt 0))
  /\ (forall retry,
        answer = Ok retry -> status_code retry <> 200 ->
        retry_value answer = VNone).
Proof.
  intros Hfirst H429 url answer.
  pose proof (api_followers_runs W uid tr) as H. cbv zeta in H.
  rewrite Hfirst, H429 in H. cbn in H.
  split; [exact H|]. split.
  - intros retry d -> H200 Hjson. unfold retry_value, json_field.
    rewrite H200, Hjson. reflexivity.
  - intros retry -> Hnot. unfold retry_value.
    destruct (status_code retry =? 200) eqn:E; [|reflexivity].
    apply Z.eqb_eq in E. contradiction.
Qed.

Lemma rate_limit_retries_once_witness :
  _get_followers_from_api rate_limited_world 1 []
  = (Ok (VInt 42),
     [EGet (followers_url 1); ESleep 2; EGet (followers_url 1)])
  /\ _get_followers_from_api always_limited_world 1 []
     = (Ok VNone,
        [EGet (followers_url 1); ESleep 2; EGet (followers_url 1)])
  /\ retry_value (respond rate_limited_world 1 (followers_url 1))
     = dict_get [("count", VInt 42)] "count" (VInt 0)
  /\ retry_value (respond always_limited_world 1 (followers_url 1)) = VNone.
Proof.
  pose proof (rate_limit_retries_once rate_limited_world 1 []
                (status_response 429 "") eq_refl eq_refl) as Hthen200.
  pose proof (rate_limit_retries_once always_limited_world 1 []
                (status_response 429 "") eq_refl eq_refl) as Hthen429.
  split; [exact (proj1 Hthen200)|].
  split; [exact (proj1 Hthen429)|].
  split.
  - exact (proj1 (proj2 Hthen200) (count_response 42)
             [("count", VInt 42)] eq_refl eq_refl eq_refl).
  - apply (proj2 (proj2 Hthen429) (status_response 429 "") eq_refl).
    discriminate.
Defined.

(** ** The profile-page extractor *)

Section ScrapeFacts.

Variable W : World.
Variable uid : Z.

Lemma scrape_fetch_raises tr e :
  respond W (requests_sent tr) (profile_url uid) = Raise e ->
  _scrape_user_profile W uid tr
  = (Ok (scrape_failure uid e), (tr ++ [EGet (profile_url uid)])%list).
Proof.
  intros E. unfold _scrape_user_profile, try_except, bind, session_get.
  rewrite E. destruct e; try reflexivity.
  cbn. destruct (status =? 404); reflexivity.
Qed.

Lemma scrape_error_status tr response :
  respond W (requests_sent tr) (profile_url uid) = Ok response ->
  is_error_status (status_code response) = true ->
  _scrape_user_profile W uid tr
  = (Ok (scrape_failure uid (HTTPError (status_code response))),
     (tr ++ [EGet (profile_url uid)])%list).
Proof.
  intros E Hs. unfold is_error_status in Hs.
  unfold _scrape_user_profile, try_except, bind, session_get,
    raise_for_status.
  rewrite E, Hs. cbn. destruct (status_code response =? 404); reflexivity.
Qed.

Lemma not_error_not_404 status :
  is_error_status status = false -> (status =? 404) = false.
Proof.
  unfold is_error_status. intros H. apply Z.eqb_neq. intros ->.
  discriminate H.
Qed.

Lemma scrape_marker tr response :
  respond W (requests_sent tr) (profile_url uid) = Ok response ->
  is_error_status (status_code response) = false ->
  Str.contains "User not found" (text response) = true ->
  _scrape_user_profile W uid tr
  = (Ok (failure uid "User not found"),
     (tr ++ [EGet (profile_url uid)])%list).
Proof.
  intros E Hs Hm. unfold is_error_status in Hs.
  unfold _scrape_user_profile, try_except, bind, session_get,
    raise_for_status.
  rewrite E, Hs. cbn [ret]. rewrite Hm. reflexivity.
Qed.

(** Once the page is fetched with a status that is no error and without
    the marker, the result is that of the extraction stage. *)
Lemma scrape_extracted tr response u tr1 f tr2 :
  respond W (requests_sent tr) (profile_url uid) = Ok response ->
  is_error_status (status_code response) = false ->
  Str.contains "User not found" (text response) = false ->
  _extract_username (BeautifulSoup W (text response))
                    (tr ++ [EGet (profile_url uid)])%list = (Ok u, tr1) ->
  _extract_followers (BeautifulSoup W (text response)) tr1 = (Ok f, tr2) ->
  _scrape_user_profile W uid tr = (Ok (extracted W uid u f), tr2).
Proof.
  intros E Hs Hm Eu Ef. pose proof (not_error_not_404 _ Hs) as H404.
  unfold is_error_status in Hs.
  unfold _scrape_user_profile, try_except, bind, session_get,
    raise_for_status.
  rewrite E, Hs. cbn [ret]. rewrite Hm, H404. cbn [orb].
  rewrite Eu, Ef. destruct f; reflexivity.
Qed.

Lemma scrape_extracts tr response :
  respond W (requests_sent tr) (profile_url uid) = Ok response ->
  is_error_status (status_code response) = false ->
  Str.contains "User not found" (text response) = false ->
  exists u f tr',
    _scrape_user_profile W uid tr = (Ok (extracted W uid u f), tr')
    /\ usable u = true
    /\ (forall n, f = Some n -> 0 <= n)
    /\ exists rest, tr' = (tr ++ EGet (profile_url uid) :: rest)%list.
Proof.
  intros E Hs Hm.
  set (soup := BeautifulSoup W (text response)).
  set (tr0 := (tr ++ [EGet (profile_url uid)])%list).
  destruct (extract_username_usable soup tr0) as (u & tr1 & Eu & Hu).
  destruct (extract_followers_nonneg soup tr1) as (f & tr2 & Ef & Hf).
  exists u, f, tr2.
  split; [|split; [exact Hu | split; [exact Hf|]]].
  - exact (scrape_extracted _ _ _ _ _ _ E Hs Hm Eu Ef).
  - destruct (extract_username_extends soup tr0) as [s1 E1].
    destruct (extract_followers_extends soup tr1) as [s2 E2].
    rewrite Eu in E1. rewrite Ef in E2. cbn [snd] in E1, E2.
    exists (s1 ++ s2)%list. rewrite E2, E1. unfold tr0.
    rewrite <- !app_assoc. reflexivity.
Qed.

(** The extractor never raises: what it returns, case by case. *)
Lemma scrape_cases tr :
  exists r tr',
    _scrape_user_profile W uid tr = (Ok r, tr')
    /\ (exists rest, tr' = (tr ++ EGet (profile_url uid) :: rest)%list)
    /\ ((exists e, r = scrape_failure uid e)
        \/ r = failure uid "User not found"
        \/ exists u f, r = extracted W uid u f /\ usable u = true
                       /\ forall n, f = Some n -> 0 <= n).
Proof.
  destruct (respond W (requests_sent tr) (profile_url uid))
    as [response|e] eqn:E.
  - destruct (is_error_status (status_code response)) eqn:Hs.
    + do 2 eexists. split; [apply (scrape_error_status _ _ E Hs)|].
      split; [exists []; reflexivity|]. left. eauto.
    + destruct (Str.contains "User not found" (text response)) eqn:Hm.
      * do 2 eexists. split; [apply (scrape_marker _ _ E Hs Hm)|].
        split; [exists []; reflexivity|]. right. left. reflexivity.
      * destruct (scrape_extracts _ _ E Hs Hm)
          as (u & f & tr' & Er & Hu & Hf & Hrest).
        exists (extracted W uid u f), tr'. split; [exact Er|].
        split; [exact Hrest|]. right. right. eauto.
  - do 2 eexists. split; [apply (scrape_fetch_raises _ _ E)|].
    split; [exists []; reflexivity|]. left. eauto.
Qed.

End ScrapeFacts.

Example server_error_run :
  _scrape_user_profile server_error_world 1 []
  = (Ok (failure 1 "HTTP error: 500"), [EGet (profile_url 1)]).
Proof. vm_compute. reflexivity. Qed.






(** ** The entry operation *)

Section EntryFacts.

Variable W : World.
Variable uid : Z.

(** The follower-count call returns no count, or the count field of an
    answer with status 200. *)
Lemma api_followers_total tr :
  exists f tr',
    _get_followers_from_api W uid tr = (Ok f, tr')
    /\ (exists more, tr' = (tr ++ EGet (followers_url uid) :: more)%list)
    /\ (f = VNone
        \/ exists i response,
             respond W i (followers_url uid) = Ok response
             /\ f = json_field response "count" (VInt 0)).
Proof.
  pose proof (api_followers_runs W uid tr) as H. cbv zeta in H.
  destruct (respond W (requests_sent tr) (followers_url uid))
    as [response|e] eqn:E1; [|eauto 8].
  destruct (status_code response =? 200); [eauto 10|].
  destruct (status_code response =? 404); [eauto 8|].
  destruct (status_code response =? 429); [|eauto 8].
  do 2 eexists. split; [exact H|]. split; [eauto|]. unfold retry_value.
  destruct (respond W (S (requests_sent tr)) (followers_url uid))
    as [retry|e] eqn:E2; [|auto].
  destruct (status_code retry =? 200); [eauto 8 | auto].
Qed.

(** [get_user_followers] never raises: it returns the complete
    structured result, or what the profile-page extractor returns. *)
Lemma lookup_cases tr :
  exists u f tr2,
    _get_username_from_api W uid tr
    = (Ok u, (tr ++ [EGet (users_url uid)])%list)
    /\ _get_followers_from_api W uid (tr ++ [EGet (users_url uid)])%list
       = (Ok f, tr2)
    /\ get_user_followers W uid tr
       = if truthy u && negb (is_none f)
         then (Ok (api_result W uid u f), tr2)
         else _scrape_user_profile W uid tr2.
Proof.
  destruct (api_username_runs W uid tr) as (u & Eu & _).
  destruct (api_followers_total (tr ++ [EGet (users_url uid)])%list)
    as (f & tr2 & Ef & _ & _).
  exists u, f, tr2. split; [exact Eu|]. split; [exact Ef|].
  unfold get_user_followers, try_except, bind. rewrite Eu, Ef.
  destruct (truthy u && negb (is_none f)); [reflexivity|].
  destruct (scrape_cases W uid tr2) as (r & tr3 & -> & _). reflexivity.
Qed.

End EntryFacts.

(** *** The shape of the results *)


Example negative_count_run :
  get_user_followers (api_world (-1)) 1 []
  = (Ok {| success := true; user_id := 1;
           username := Some (VStr "builderman"); followers := Some (VInt (-1));
           timestamp := Some "2024-01-01T00:00:00"; error := None |},
     [EGet (users_url 1); EGet (followers_url 1)]).
Proof. vm_compute. reflexivity. Qed.




(** *** Transport failures in the structured lookup *)

(** the run in which the identity call times out *)
Example identity_timeout_run :
  fst (get_user_followers identity_timeout_world 1 [])
  = Ok {| success := true; user_id := 1;
          username := Some (VStr "Unknown"); followers := Some (VInt 5);
          timestamp := Some "2024-01-01T00:00:00"; error := None |}
  /\ firstn 3 (snd (get_user_followers identity_timeout_world 1 []))
     = [EGet (users_url 1); EGet (followers_url 1); EGet (profile_url 1)].
Proof. split; vm_compute; reflexivity. Qed.




(** *** Idempotence *)

Lemma scrape_at_time W t uid tr :
  exists r1 r2 tr',
    _scrape_user_profile W uid tr = (Ok r1, tr')
    /\ _scrape_user_profile (at_time W t) uid tr = (Ok r2, tr')
    /\ without_timestamp r1 = without_timestamp r2.
Proof.
  destruct (respond W (requests_sent tr) (profile_url uid))
    as [response|e] eqn:E.
  - destruct (is_error_status (status_code response)) eqn:Hs.
    + do 3 eexists. split; [apply (scrape_error_status W _ _ _ E Hs)|].
      split; [apply (scrape_error_status (at_time W t) _ _ _ E Hs)|].
      reflexivity.
    + destruct (Str.contains "User not found" (text response)) eqn:Hm.
      * do 3 eexists. split; [apply (scrape_marker W _ _ _ E Hs Hm)|].
        split; [apply (scrape_marker (at_time W t) _ _ _ E Hs Hm)|].
        reflexivity.
      * set (soup := BeautifulSoup W (text response)).
        destruct (extract_username_usable soup
                    (tr ++ [EGet (profile_url uid)])%list)
          as (u & tr1 & Eu & _).
        destruct (extract_followers_nonneg soup tr1) as (f & tr2 & Ef & _).
        exists (extracted W uid u f), (extracted (at_time W t) uid u f), tr2.
        split; [exact (scrape_extracted W _ _ _ _ _ _ _ E Hs Hm Eu Ef)|].
        split;
          [exact (scrape_extracted (at_time W t) _ _ _ _ _ _ _ E Hs Hm Eu Ef)|].
        destruct f; reflexivity.
  - do 3 eexists. split; [apply (scrape_fetch_raises W _ _ _ E)|].
    split; [apply (scrape_fetch_raises (at_time W t) _ _ _ E)|].
    reflexivity.
Qed.

Lemma lookup_at_time W t uid tr :
  exists r1 r2 tr',
    get_user_followers W uid tr = (Ok r1, tr')
    /\ get_user_followers (at_time W t) uid tr = (Ok r2, tr')
    /\ without_timestamp r1 = without_timestamp r2.
Proof.
  destruct (lookup_cases W uid tr) as (u & f & tr2 & Eu & Ef & E1).
  destruct (lookup_cases (at_time W t) uid tr)
    as (u' & f' & tr2' & Eu' & Ef' & E2).
  change (_get_username_from_api (at_time W t) uid tr)
    with (_get_username_from_api W uid tr) in Eu'.
  rewrite Eu in Eu'. injection Eu' as <-.
  change (_get_followers_from_api (at_time W t) uid)
    with (_get_followers_from_api W uid) in Ef'.
  rewrite Ef in Ef'. injection Ef' as <- <-.
  rewrite E1, E2. destruct (truthy u && negb (is_none f)).
  - do 3 eexists. split; [reflexivity|]. split; reflexivity.
  - apply scrape_at_time.
Qed.

(** C9. Two calls of [get_user_followers] with the same id that meet
    the same answers (the same responses to their requests and the same
    parse of the page), whatever the clock shows, send the same requests
    and return results that agree in every field except possibly
    [timestamp]. *)
Theorem lookup_idempotent (W1 W2 : World) (uid : Z) (tr : trace) :
  respond W1 = respond W2 ->
  BeautifulSoup W1 = BeautifulSoup W2 ->
  exists r1 r2 tr',
    get_user_followers W1 uid tr = (Ok r1, tr')
    /\ get_user_followers W2 uid tr = (Ok r2, tr')
    /\ without_timestamp r1 = without_timestamp r2.
Proof.
  destruct W1 as [resp1 bs1 t1], W2 as [resp2 bs2 t2].
  cbn [respond BeautifulSoup]. intros <- <-.
  exact (lookup_at_time
           {| respond := resp1; BeautifulSoup := bs1; now := t1 |} t2 uid tr).
Qed.

Lemma lookup_idempotent_witness :
  exists r1 r2 tr',
    get_user_followers (api_world 12) 1 [] = (Ok r1, tr')
    /\ get_user_followers (at_time (api_world 12) "2025-06-30T12:00:00") 1 []
       = (Ok r2, tr')
    /\ without_timestamp r1 = without_timestamp r2.
Proof.
  exact (lookup_idempotent (api_world 12)
           (at_time (api_world 12) "2025-06-30T12:00:00") 1 []
           eq_refl eq_refl).
Defined.

(** * Further properties of the code *)

(** ** Number normalisation *)

Module TokenFacts.




Lemma space_lower_char c : Str.is_space (Str.lower_char c) = Str.is_space c.
Proof. destruct c as [[] [] [] [] [] [] [] []]; reflexivity. Qed.

Lemma lower_char_idem c : Str.lower_char (Str.lower_char c) = Str.lower_char c.
Proof. destruct c as [[] [] [] [] [] [] [] []]; reflexivity. Qed.





(** a character class that is absent from a text is absent from what
    the string operations of [_parse_number] leave of it *)
Section Absent.

Variable p : ascii -> bool.
Hypothesis p_lower : forall c, p (Str.lower_char c) = p c.





End Absent.




Lemma lstrip_lower s : Str.lstrip (Str.lower s) = Str.lower (Str.lstrip s).
Proof.
  induction s as [|c s IH]; cbn [Str.lower Str.lstrip]; [reflexivity|].
  rewrite space_lower_char. destruct (Str.is_space c); [exact IH | reflexivity].
Qed.

Lemma rstrip_lower s : Str.rstrip (Str.lower s) = Str.lower (Str.rstrip s).
Proof.
  induction s as [|c s IH]; cbn [Str.lower Str.rstrip]; [reflexivity|].
  rewrite IH, space_lower_char.
  destruct (Str.rstrip s) as [|d t]; cbn [Str.lower].
  - destruct (Str.is_space c); reflexivity.
  - reflexivity.
Qed.

Lemma lower_idem s : Str.lower (Str.lower s) = Str.lower s.
Proof.
  induction s as [|c s IH]; cbn [Str.lower]; [reflexivity|].
  rewrite lower_char_idem, IH. reflexivity.
Qed.

Lemma rstrip_idem s : Str.rstrip (Str.rstrip s) = Str.rstrip s.
Proof.
  induction s as [|c s IH]; cbn [Str.rstrip]; [reflexivity|].
  destruct (Str.rstrip s) as [|d t] eqn:E.
  - destruct (Str.is_space c) eqn:Hc; cbn [Str.rstrip]; [reflexivity|].
    rewrite Hc. reflexivity.
  - cbn [Str.rstrip]. cbn [Str.rstrip] in IH. rewrite IH. reflexivity.
Qed.

Lemma lstrip_clean s : starts_clean (Str.lstrip s).
Proof.
  induction s as [|c s IH]; cbn [Str.lstrip]; [exact I|].
  destruct (Str.is_space c) eqn:E; [exact IH | exact E].
Qed.

Lemma rstrip_keeps_clean s : starts_clean s -> starts_clean (Str.rstrip s).
Proof.
  destruct s as [|c s]; [auto|]. cbn [Str.rstrip starts_clean]. intros H.
  destruct (Str.rstrip s); [rewrite H|]; exact H.
Qed.

Lemma lstrip_of_clean s : starts_clean s -> Str.lstrip s = s.
Proof.
  destruct s as [|c s]; [reflexivity|]. cbn [starts_clean Str.lstrip].
  intros ->. reflexivity.
Qed.

Lemma strip_idem s : Str.strip (Str.strip s) = Str.strip s.
Proof.
  unfold Str.strip.
  rewrite (lstrip_of_clean _ (rstrip_keeps_clean _ (lstrip_clean s))).
  apply rstrip_idem.
Qed.

Lemma strip_lower s : Str.strip (Str.lower s) = Str.lower (Str.strip s).
Proof. unfold Str.strip. rewrite lstrip_lower, rstrip_lower. reflexivity. Qed.

End TokenFacts.



(** X2. [_parse_number] does not see the letter case of a token nor the
    blanks around it: lower-casing the token or stripping it first
    changes neither the value nor the exception. *)
Theorem parse_number_case_and_blanks (text : string) :
  _parse_number (Str.lower text) = _parse_number text
  /\ _parse_number (Str.strip text) = _parse_number text.
Proof.
  split.
  - unfold _parse_number.
    rewrite TokenFacts.strip_lower, TokenFacts.lower_idem. reflexivity.
  - unfold _parse_number. rewrite TokenFacts.strip_idem. reflexivity.
Qed.

(** ** Follower-count strategies 2 to 4 *)

Lemma search_digit_from p s :
  Re.search_from Re.digit p s = Str.existsb Str.is_digit s.
Proof.
  revert p. induction s as [|c s IH]; intros p; cbn [Re.search_from].
  - reflexivity.
  - unfold Re.match_at, Re.digit. cbn [Re.run Re.eat Re.rest].
    cbn [Str.existsb]. destruct (Str.is_digit c); cbn [hd_error orb].
    + reflexivity.
    + apply IH.
Qed.

(** [re.search(r'\d', text)] finds a digit where there is one *)
Lemma search_digit s : Re.search Re.digit s = Str.existsb Str.is_digit s.
Proof. apply search_digit_from. Qed.

(** The guard [follower_count >= 0] never rejects: the first match
    decides. *)
Lemma first_count_decides matches tr :
  first_count matches tr = (decided (hd_error matches), tr).
Proof.
  destruct matches as [|m ms]; [reflexivity|].
  unfold first_count. cbn [for_each hd_error decided].
  unfold and_then, bind, lift, token_decides.
  destruct (_parse_number m) as [n|e] eqn:E; [|reflexivity].
  apply parse_number_nonneg in E. apply Z.leb_le in E. rewrite E.
  reflexivity.
Qed.

Lemma patterns_first_decides page_text patterns tr :
  for_each patterns (fun pattern =>
    first_count (Re.findall pattern page_text)) tr
  = (decided (first_some (pattern_match page_text) patterns), tr).
Proof.
  induction patterns as [|p ps IH]; cbn [for_each first_some];
    [reflexivity|].
  unfold and_then, bind. rewrite first_count_decides.
  unfold pattern_match at 1.
  destruct (hd_error (Re.findall p page_text)) as [m|]; cbn [decided].
  - unfold token_decides. destruct (_parse_number m); reflexivity.
  - exact IH.
Qed.

Lemma elements_first_decides elements tr :
  for_each elements (fun element =>
    let text := Str.strip (tag_get_text element) in
    if Str.nonempty text && Re.search Re.digit text then
      follower_count <- lift (_parse_number text) ;;
      if 0 <=? follower_count then ret (Return follower_count)
      else ret Next
    else ret Next) tr
  = (decided (first_some countable_text elements), tr).
Proof.
  induction elements as [|el els IH]; cbn [for_each first_some];
    [reflexivity|].
  unfold and_then, bind at 1. unfold countable_text at 1. cbv zeta.
  rewrite search_digit.
  destruct (Str.nonempty _ && Str.existsb _ _); [|exact IH].
  cbn [decided]. unfold bind, lift, token_decides.
  destruct (_parse_number (Str.strip (tag_get_text el))) as [n|e] eqn:E;
    [|reflexivity].
  apply parse_number_nonneg in E. apply Z.leb_le in E. rewrite E.
  reflexivity.
Qed.

Lemma selectors_scan_decides soup selectors tr :
  for_each selectors (fun selector =>
    elements <- select soup selector ;;
    for_each elements (fun element =>
      let text := Str.strip (tag_get_text element) in
      if Str.nonempty text && Re.search Re.digit text then
        follower_count <- lift (_parse_number text) ;;
        if 0 <=? follower_count then ret (Return follower_count)
        else ret Next
      else ret Next)) tr
  = (decided (fst (selector_scan soup selectors)),
     (tr ++ map EQuery (snd (selector_scan soup selectors)))%list).
Proof.
  revert tr. induction selectors as [|sel sels IH]; intros tr;
    cbn [for_each selector_scan].
  - cbn. rewrite app_nil_r. reflexivity.
  - unfold and_then. unfold bind at 1. unfold select at 1.
    unfold bind at 1. unfold bind at 1. unfold emit, ret at 1.
    rewrite elements_first_decides.
    destruct (first_some countable_text (soup_select soup sel)) as [t|];
      cbn [decided fst snd map].
    + unfold token_decides. destruct (_parse_number t); reflexivity.
    + rewrite IH. destruct (selector_scan soup sels) as [r qs].
      cbn [fst snd map]. rewrite <- app_assoc. reflexivity.
Qed.

Lemma followers_from_selectors_scan soup tr :
  followers_from_selectors soup tr
  = (decided (fst (selector_scan soup follower_selectors)),
     (tr ++ map EQuery (snd (selector_scan soup follower_selectors)))%list).
Proof. apply selectors_scan_decides. Qed.

(** X3. Strategy 2 is decided by one element: the selectors are tried
    in the order of the list and the elements of each in document order,
    and the first element whose stripped text is non-empty and holds a
    digit gives the result, its normalised text.  No later element or
    selector is looked at, whatever the number is, and if the
    normalisation raises, so does the strategy. *)
Theorem selector_strategy_first_countable (soup : Soup) (tr : trace) :
  followers_from_selectors soup tr
  = (decided (fst (selector_scan soup follower_selectors)),
     (tr ++ map EQuery (snd (selector_scan soup follower_selectors)))%list).
Proof. apply followers_from_selectors_scan. Qed.

(** X4. Strategies 3 and 4 are decided by one match: the patterns are
    tried in the order of their list, and the first match of the first
    pattern that matches anywhere in the page text gives the result, its
    normalised value, even when that is 0; later matches and later
    patterns are never used. *)
Theorem text_strategies_first_match (page_text : string) (tr : trace) :
  followers_from_text page_text tr
  = (decided (first_some (pattern_match page_text) Re.text_patterns), tr)
  /\ followers_from_context page_text tr
     = (decided (first_some (pattern_match page_text)
                            Re.follower_context_patterns), tr).
Proof. split; apply patterns_first_decides. Qed.

Example zero_followers_decides :
  fst (followers_from_text "0 followers, 12 Followers" []) = Ok (Return 0).
Proof. vm_compute. reflexivity. Qed.

(** X5. An exception in the number normalisation ends the whole
    extraction: when no script matches and the element that decides
    strategy 2 holds a token on which [_parse_number] raises,
    [_extract_followers] returns None without reading the page text, so
    that the text strategies are never tried. *)
Theorem overflow_ends_extraction (soup : Soup) (tr : trace)
        (token : string) (e : exn) :
  script_then_pattern (soup_find_all soup "script") = None ->
  fst (selector_scan soup follower_selectors) = Some token ->
  _parse_number token = Raise e ->
  _extract_followers soup tr
  = (Ok None,
     (tr ++ EQuery (QFindAll "script")
         :: map EQuery (snd (selector_scan soup follower_selectors)))%list).
Proof.
  intros Hscripts Hscan Hraise.
  unfold _extract_followers, try_except, or_none.
  unfold bind at 1. unfold and_then at 1. unfold bind at 1.
  rewrite followers_from_scripts_first, Hscripts. cbn [option_map to_flow].
  unfold and_then at 1. unfold bind at 1.
  rewrite followers_from_selectors_scan, Hscan. cbn [decided].
  unfold token_decides. rewrite Hraise. cbn [ret].
  rewrite <- app_assoc. reflexivity.
Qed.

Lemma overflow_ends_extraction_witness :
  _extract_followers overflow_page []
  = (Ok None,
     EQuery (QFindAll "script")
     :: map EQuery (snd (selector_scan overflow_page follower_selectors))).
Proof.
  apply (overflow_ends_extraction overflow_page []
           (Str.repeat "9" 310 ++ ".0") OverflowError);
    vm_compute; reflexivity.
Defined.

(** the same page without the element gives the count of its text *)
Example text_only_page_count :
  fst (_extract_followers text_only_page []) = Ok (Some 1234).
Proof. vm_compute. reflexivity. Qed.

(** ** The extraction only queries the document *)

Lemma asks_only_ret {A} (a : A) : asks_only (ret a).
Proof. intros tr. exists []. cbn. rewrite app_nil_r. reflexivity. Qed.

Lemma asks_only_lift {A} (o : outcome A) : asks_only (lift o).
Proof. intros tr. exists []. cbn. rewrite app_nil_r. reflexivity. Qed.

Lemma asks_only_query q : asks_only (emit (EQuery q)).
Proof. intros tr. exists [q]. reflexivity. Qed.

Lemma asks_only_bind {A B} (m : M A) (k : A -> M B) :
  asks_only m -> (forall a, asks_only (k a)) -> asks_only (bind m k).
Proof.
  intros Hm Hk tr. unfold bind. destruct (Hm tr) as [q1 E1].
  destruct (m tr) as [[a|e] tr1]; cbn [snd] in *; subst tr1.
  - destruct (Hk a (tr ++ map EQuery q1)%list) as [q2 E2].
    exists (q1 ++ q2)%list. rewrite E2, map_app, app_assoc. reflexivity.
  - exists q1. reflexivity.
Qed.

Lemma asks_only_try_except {A} (m : M A) (h : exn -> M A) :
  asks_only m -> (forall e, asks_only (h e)) -> asks_only (try_except m h).
Proof.
  intros Hm Hh tr. unfold try_except. destruct (Hm tr) as [q1 E1].
  destruct (m tr) as [[a|e] tr1]; cbn [snd] in *; subst tr1.
  - exists q1. reflexivity.
  - destruct (Hh e (tr ++ map EQuery q1)%list) as [q2 E2].
    exists (q1 ++ q2)%list. rewrite E2, map_app, app_assoc. reflexivity.
Qed.

Lemma asks_only_and_then {R} (s1 s2 : M (flow R)) :
  asks_only s1 -> asks_only s2 -> asks_only (s1 ;;; s2).
Proof.
  intros H1 H2. unfold and_then. apply asks_only_bind; [exact H1|].
  intros [|r]; [exact H2 | apply asks_only_ret].
Qed.

Lemma asks_only_for_each {X R} (xs : list X) (body : X -> M (flow R)) :
  (forall x, asks_only (body x)) -> asks_only (for_each xs body).
Proof.
  intros Hb. induction xs as [|x xs IH]; cbn [for_each].
  - apply asks_only_ret.
  - apply asks_only_and_then; [apply Hb | exact IH].
Qed.

Lemma asks_only_fold_each {X A} (xs : list X) (body : A -> X -> M A) :
  (forall acc x, asks_only (body acc x)) ->
  forall acc, asks_only (fold_each xs acc body).
Proof.
  intros Hb. induction xs as [|x xs IH]; intros acc; cbn [fold_each].
  - apply asks_only_ret.
  - apply asks_only_bind; [apply Hb | exact IH].
Qed.

Lemma asks_only_swallow {R} (s : M (flow R)) :
  asks_only s -> asks_only (swallow s).
Proof.
  intros Hs. apply asks_only_try_except; [exact Hs|].
  intros e. apply asks_only_ret.
Qed.

Lemma asks_only_or_return {R} (s : M (flow R)) (last : R) :
  asks_only s -> asks_only (or_return s last).
Proof.
  intros Hs. apply asks_only_bind; [exact Hs|].
  intros [|r]; apply asks_only_ret.
Qed.

Lemma asks_only_or_none {R} (s : M (flow R)) :
  asks_only s -> asks_only (or_none s).
Proof.
  intros Hs. apply asks_only_bind; [exact Hs|].
  intros [|r]; apply asks_only_ret.
Qed.

Ltac asks_only_step :=
  lazymatch goal with
  | |- asks_only (ret _) => apply asks_only_ret
  | |- asks_only (lift _) => apply asks_only_lift
  | |- asks_only (emit (EQuery _)) => apply asks_only_query
  | |- asks_only (find _ _) => unfold find
  | |- asks_only (find_attr _ _ _ _) => unfold find_attr
  | |- asks_only (find_all _ _) => unfold find_all
  | |- asks_only (select_one _ _) => unfold select_one
  | |- asks_only (select _ _) => unfold select
  | |- asks_only (get_text _) => unfold get_text
  | |- asks_only (for_each _ _) => apply asks_only_for_each
  | |- asks_only (fold_each _ _ _) => apply asks_only_fold_each
  | |- asks_only (swallow _) => apply asks_only_swallow
  | |- asks_only (or_return _ _) => apply asks_only_or_return
  | |- asks_only (or_none _) => apply asks_only_or_none
  | |- asks_only (try_except _ _) => apply asks_only_try_except
  | |- asks_only (and_then _ _) => apply asks_only_and_then
  | |- asks_only (bind _ _) => apply asks_only_bind
  | |- asks_only (match ?x with _ => _ end) => destruct x
  | |- asks_only (let _ := _ in _) => cbv zeta
  | |- forall _, _ => intro
  end.

Lemma extract_username_asks soup : asks_only (_extract_username soup).
Proof.
  unfold _extract_username, username_from_title, username_from_description,
    username_from_og_title, username_from_selectors, username_from_headings.
  repeat asks_only_step.
Qed.

Lemma extract_followers_asks soup : asks_only (_extract_followers soup).
Proof.
  unfold _extract_followers, followers_from_scripts, followers_in_script,
    followers_from_selectors, followers_from_text, followers_from_context,
    followers_heuristic, potential_followers, first_count.
  repeat asks_only_step.
Qed.

(** ** The requests of a lookup *)

Lemma profile_url_apart uid :
  users_url uid <> profile_url uid /\ followers_url uid <> profile_url uid.
Proof.
  split; intros H; apply (f_equal (String.get 8)) in H; cbn in H;
    discriminate H.
Qed.

(** the extractor sends one request and then only queries the page *)
Lemma scrape_trace W uid tr :
  exists qs,
    snd (_scrape_user_profile W uid tr)
    = (tr ++ EGet (profile_url uid) :: map EQuery qs)%list.
Proof.
  destruct (respond W (requests_sent tr) (profile_url uid))
    as [response|e] eqn:E.
  - destruct (is_error_status (status_code response)) eqn:Hs.
    + exists []. rewrite (scrape_error_status _ _ _ _ E Hs). reflexivity.
    + destruct (Str.contains "User not found" (text response)) eqn:Hm.
      * exists []. rewrite (scrape_marker _ _ _ _ E Hs Hm). reflexivity.
      * set (soup := BeautifulSoup W (text response)).
        set (tr0 := (tr ++ [EGet (profile_url uid)])%list).
        destruct (extract_username_usable soup tr0) as (u & tr1 & Eu & _).
        destruct (extract_followers_nonneg soup tr1) as (f & tr2 & Ef & _).
        rewrite (scrape_extracted _ _ _ _ _ _ _ _ E Hs Hm Eu Ef).
        destruct (extract_username_asks soup tr0) as [q1 E1].
        destruct (extract_followers_asks soup tr1) as [q2 E2].
        rewrite Eu in E1. rewrite Ef in E2. cbn [snd] in *.
        exists (q1 ++ q2)%list. rewrite E2, E1. unfold tr0.
        rewrite map_app, <- !app_assoc. reflexivity.
  - exists []. rewrite (scrape_fetch_raises _ _ _ _ E). reflexivity.
Qed.

(** the follower-count call sends one request, or two around a sleep *)
Lemma api_followers_trace W uid tr :
  exists f retried,
    _get_followers_from_api W uid tr
    = (Ok f,
       (tr ++ if retried : bool
              then [EGet (followers_url uid); ESleep 2;
                    EGet (followers_url uid)]
              else [EGet (followers_url uid)])%list).
Proof.
  pose proof (api_followers_runs W uid tr) as H. cbv zeta in H.
  destruct (respond W (requests_sent tr) (followers_url uid))
    as [response|e]; [|exists VNone, false; exact H].
  destruct (status_code response =? 200); [eexists _, false; exact H|].
  destruct (status_code response =? 404); [exists VNone, false; exact H|].
  destruct (status_code response =? 429);
    [eexists _, true; exact H | exists VNone, false; exact H].
Qed.

(** the whole lookup: its values and its trace *)
Lemma lookup_trace W uid tr :
  exists u f retried,
    _get_username_from_api W uid tr
    = (Ok u, (tr ++ [EGet (users_url uid)])%list)
    /\ _get_followers_from_api W uid (tr ++ [EGet (users_url uid)])%list
       = (Ok f, (tr ++ api_requests uid retried)%list)
    /\ get_user_followers W uid tr
       = if truthy u && negb (is_none f)
         then (Ok (api_result W uid u f), (tr ++ api_requests uid retried)%list)
         else _scrape_user_profile W uid (tr ++ api_requests uid retried)%list.
Proof.
  destruct (lookup_cases W uid tr) as (u & f & tr2 & Eu & Ef & E).
  destruct (api_followers_trace W uid (tr ++ [EGet (users_url uid)])%list)
    as (f0 & retried & Ef0).
  rewrite Ef in Ef0. injection Ef0 as <- ->.
  exists u, f, retried.
  assert (Etr : ((tr ++ [EGet (users_url uid)]) ++
                 (if retried
                  then [EGet (followers_url uid); ESleep 2;
                        EGet (followers_url uid)]
                  else [EGet (followers_url uid)]))%list
                = (tr ++ api_requests uid retried)%list).
  { rewrite <- app_assoc. unfold api_requests. destruct retried; reflexivity. }
  rewrite Etr in *. auto.
Qed.

(** X6. The requests of one lookup: the identity request, the
    follower-count request, after a 429 a sleep of 2 seconds and one more
    follower-count request, and then, only when the fallback runs, one
    request for the profile page followed by queries of the parsed page.
    So a lookup sends at least two and at most four requests, never
    sleeps more than once, and asks for no other URL. *)
Theorem lookup_request_budget (W : World) (uid : Z) (tr : trace) :
  exists retried page,
    snd (get_user_followers W uid tr)
    = (tr ++ api_requests uid retried ++ page)%list
    /\ (page = [] \/ exists qs, page = EGet (profile_url uid) :: map EQuery qs)
    /\ (requests_sent tr + 2
        <= requests_sent (snd (get_user_followers W uid tr))
        <= requests_sent tr + 4)%nat.
Proof.
  destruct (lookup_trace W uid tr) as (u & f & retried & _ & _ & E).
  assert (Hshape : exists page,
             snd (get_user_followers W uid tr)
             = (tr ++ api_requests uid retried ++ page)%list
             /\ (page = []
                 \/ exists qs, page = EGet (profile_url uid) :: map EQuery qs)).
  { rewrite E. destruct (truthy u && negb (is_none f)).
    - exists []. rewrite app_nil_r. auto.
    - destruct (scrape_trace W uid (tr ++ api_requests uid retried)%list)
        as [qs Eq].
      exists (EGet (profile_url uid) :: map EQuery qs).
      rewrite Eq, <- app_assoc. eauto. }
  destruct Hshape as (page & Hsnd & Hpage).
  exists retried, page. split; [exact Hsnd|]. split; [exact Hpage|].
  rewrite Hsnd, !requests_sent_app.
  assert (Hapi : (2 <= requests_sent (api_requests uid retried) <= 3)%nat).
  { destruct retried; cbn; lia. }
  assert (Hp : (requests_sent page <= 1)%nat).
  { destruct Hpage as [->|(qs & ->)]; [cbn; lia|].
    unfold requests_sent. cbn [filter is_get List.length].
    assert (Hq : filter is_get (map EQuery qs) = []).
    { clear. induction qs; [reflexivity | exact IHqs]. }
    rewrite Hq. cbn. lia. }
  lia.
Qed.

(** ** The two calls of the structured lookup *)

Lemma dict_get_has d key default :
  dict_has d key = true -> dict_get d key default = dict_get d key VNone.
Proof.
  unfold dict_has. induction d as [|[k v] d IH]; cbn [existsb dict_get fst];
    [discriminate|].
  destruct (String.eqb k key); [reflexivity | exact IH].
Qed.

Lemma dict_get_missing d key default :
  dict_has d key = false -> dict_get d key default = default.
Proof.
  unfold dict_has. induction d as [|[k v] d IH]; cbn [existsb dict_get fst];
    [reflexivity|].
  destruct (String.eqb k key); [discriminate | exact IH].
Qed.

(** what the identity call returns, case by case *)
Lemma api_username_value (W : World) (uid : Z) (tr : trace) :
  exists v,
    _get_username_from_api W uid tr
    = (Ok v, (tr ++ [EGet (users_url uid)])%list)
    /\ (forall response d,
          respond W (requests_sent tr) (users_url uid) = Ok response ->
          status_code response = 200 ->
          json response = Ok (VDict d) ->
          v = if dict_has d "name" then dict_get d "name" VNone
              else dict_get d "displayName" VNone)
    /\ (forall response,
          respond W (requests_sent tr) (users_url uid) = Ok response ->
          status_code response <> 200
          \/ (forall d, json response <> Ok (VDict d)) ->
          v = VNone)
    /\ (forall e,
          respond W (requests_sent tr) (users_url uid) = Raise e ->
          v = VNone).
Proof.
  unfold _get_username_from_api, try_except, bind, session_get.
  destruct (respond W (requests_sent tr) (users_url uid))
    as [response|e] eqn:E.
  - destruct (status_code response =? 200) eqn:E200.
    + apply Z.eqb_eq in E200. unfold lift, py_get.
      destruct (json response) as [[| b | n | f | s | l | d]|e0] eqn:Ej.
      7: { exists (dict_get d "name" (dict_get d "displayName" VNone)).
           split; [reflexivity|]. split; [|split].
           - intros r d' [= <-] _ Hd. rewrite Ej in Hd. injection Hd as <-.
             destruct (dict_has d "name") eqn:Hn.
             + apply dict_get_has, Hn.
             + apply dict_get_missing, Hn.
           - intros r [= <-] [Hs|Hd]; [contradiction|].
             exfalso. exact (Hd d Ej).
           - discriminate. }
      all: exists VNone; split; [reflexivity|]; split; [|split];
        [ intros r d' [= <-] _ Hd; rewrite Ej in Hd; discriminate Hd
        | reflexivity
        | discriminate ].
    + assert (Hne : status_code response <> 200) by (apply Z.eqb_neq, E200).
      exists VNone.
      split; [destruct (status_code response =? 404); reflexivity|].
      split; [|split].
      * intros r d [= <-] Hs. contradiction.
      * reflexivity.
      * discriminate.
  - exists VNone. split; [reflexivity|]. split; [|split].
    + discriminate.
    + discriminate.
    + reflexivity.
Qed.

(** X7. The identity call sends exactly one request and never raises.
    From an answer with status 200 whose JSON is an object it returns
    the value of [name] whenever the key is there (even null, and
    whatever [displayName] holds), and the value of [displayName], or
    None, only when [name] is missing.  Any other status, a body that is
    no JSON object, and any exception of the request give None. *)
Theorem identity_call_result (W : World) (uid : Z) (tr : trace) :
  exists v,
    _get_username_from_api W uid tr
    = (Ok v, (tr ++ [EGet (users_url uid)])%list)
    /\ (forall response d,
          respond W (requests_sent tr) (users_url uid) = Ok response ->
          status_code response = 200 ->
          json response = Ok (VDict d) ->
          v = if dict_has d "name" then dict_get d "name" VNone
              else dict_get d "displayName" VNone)
    /\ (forall response,
          respond W (requests_sent tr) (users_url uid) = Ok response ->
          status_code response <> 200
          \/ (forall d, json response <> Ok (VDict d)) ->
          v = VNone)
    /\ (forall e,
          respond W (requests_sent tr) (users_url uid) = Raise e ->
          v = VNone).
Proof. apply api_username_value. Qed.

Lemma identity_call_result_witness :
  (exists v,
      _get_username_from_api no_count_world 1 []
      = (Ok v, [EGet (users_url 1)])
      /\ v = VStr "builderman")
  /\ (exists v,
        _get_username_from_api rate_limited_world 1 []
        = (Ok v, [EGet (users_url 1)])
        /\ v = VNone)
  /\ (exists v,
        _get_username_from_api (api_world 12) 2 []
        = (Ok v, [EGet (users_url 2)])
        /\ v = VNone).
Proof.
  split; [|split].
  - destruct (identity_call_result no_count_world 1 [])
      as (v & E & Hname & _).
    exists v. split; [exact E|].
    exact (Hname both_names_response _ eq_refl eq_refl eq_refl).
  - destruct (identity_call_result rate_limited_world 1 [])
      as (v & E & _ & Hother & _).
    exists v. split; [exact E|].
    apply (Hother (status_response 429 "") eq_refl). left. discriminate.
  - destruct (identity_call_result (api_world 12) 2 [])
      as (v & E & _ & _ & Hraise).
    exists v. split; [exact E|].
    exact (Hraise ConnectionError eq_refl).
Defined.

(** X8. Without a 429 the follower-count call sends exactly one request
    and does not sleep.  Status 200 gives the [count] field of the JSON
    object, 0 when the object has no such key, and None when the body is
    no JSON object; every other status and any exception of the request
    give None. *)
Theorem follower_call_without_retry (W : World) (uid : Z) (tr : trace) :
  (forall response,
      respond W (requests_sent tr) (followers_url uid) = Ok response ->
      status_code response <> 429 ->
      _get_followers_from_api W uid tr
      = (Ok (if status_code response =? 200
             then json_field response "count" (VInt 0)
             else VNone),
         (tr ++ [EGet (followers_url uid)])%list)
      /\ (forall d,
            json response = Ok (VDict d) -> dict_has d "count" = false ->
            json_field response "count" (VInt 0) = VInt 0))
  /\ (forall e,
        respond W (requests_sent tr) (followers_url uid) = Raise e ->
        _get_followers_from_api W uid tr
        = (Ok VNone, (tr ++ [EGet (followers_url uid)])%list)).
Proof.
  pose proof (api_followers_runs W uid tr) as H. cbv zeta in H.
  split.
  - intros response E Hnot. rewrite E in H. split.
    + destruct (status_code response =? 200); [exact H|].
      destruct (status_code response =? 404); [exact H|].
      destruct (status_code response =? 429) eqn:E429; [|exact H].
      apply Z.eqb_eq in E429. contradiction.
    + intros d Hj Hmiss. unfold json_field. rewrite Hj.
      apply dict_get_missing, Hmiss.
  - intros e E. rewrite E in H. exact H.
Qed.

Lemma follower_call_without_retry_witness :
  _get_followers_from_api no_count_world 1 []
  = (Ok (VInt 0), [EGet (followers_url 1)])
  /\ _get_followers_from_api plain_page_world 1 []
     = (Ok VNone, [EGet (followers_url 1)])
  /\ json_field empty_object_response "count" (VInt 0) = VInt 0
  /\ _get_followers_from_api (api_world 12) 2 []
     = (Ok VNone, [EGet (followers_url 2)]).
Proof.
  split; [|split; [|split]].
  - exact (proj1 (proj1 (follower_call_without_retry no_count_world 1 [])
                    empty_object_response eq_refl ltac:(discriminate))).
  - exact (proj1 (proj1 (follower_call_without_retry plain_page_world 1 [])
                    (status_response 200 "<html></html>") eq_refl
                    ltac:(discriminate))).
  - exact (proj2 (proj1 (follower_call_without_retry no_count_world 1 [])
                    empty_object_response eq_refl ltac:(discriminate))
             [] eq_refl eq_refl).
  - exact (proj2 (follower_call_without_retry (api_world 12) 2 [])
             ConnectionError eq_refl).
Defined.

(** ** The entry operation, path by path *)

(** X9. When both endpoints answer 200 with JSON objects, the name read
    from the first is true as a condition and the count read from the
    second is not None, the lookup succeeds from the two requests alone:
    it returns the name and the count as received, with the timestamp,
    and the profile page is not fetched.  A count of 0, and the 0 that
    stands for a missing [count] key, is such a count. *)
Theorem structured_lookup_complete (W : World) (uid : Z) (tr : trace)
        (identity counts : Response) (dn dc : list (string * value)) :
  respond W (requests_sent tr) (users_url uid) = Ok identity ->
  status_code identity = 200 ->
  json identity = Ok (VDict dn) ->
  respond W (S (requests_sent tr)) (followers_url uid) = Ok counts ->
  status_code counts = 200 ->
  json counts = Ok (VDict dc) ->
  let name := if dict_has dn "name" then dict_get dn "name" VNone
              else dict_get dn "displayName" VNone in
  let count := dict_get dc "count" (VInt 0) in
  truthy name = true ->
  count <> VNone ->
  get_user_followers W uid tr
  = (Ok (api_result W uid name count),
     (tr ++ [EGet (users_url uid); EGet (followers_url uid)])%list).
Proof.
  intros Ei Hi Ji Ec Hc Jc name count Hname Hcount.
  destruct (lookup_cases W uid tr) as (u & f & tr2 & Eu & Ef & E).
  destruct (api_username_value W uid tr) as (u0 & Eu0 & Hu0 & _).
  rewrite Eu in Eu0. injection Eu0 as <-.
  specialize (Hu0 identity dn Ei Hi Ji). fold name in Hu0. subst u.
  pose proof (api_followers_runs W uid (tr ++ [EGet (users_url uid)])%list)
    as Hruns.
  cbv zeta in Hruns. rewrite requests_sent_get, Ec, Hc in Hruns.
  cbn [Z.eqb Pos.eqb] in Hruns. unfold json_field in Hruns.
  rewrite Jc in Hruns. fold count in Hruns.
  rewrite Ef in Hruns. injection Hruns as -> ->.
  rewrite E, Hname. destruct count; try contradiction;
    rewrite <- app_assoc; reflexivity.
Qed.

Lemma structured_lookup_complete_witness :
  get_user_followers no_count_world 1 []
  = (Ok (api_result no_count_world 1 (VStr "builderman") (VInt 0)),
     [EGet (users_url 1); EGet (followers_url 1)]).
Proof.
  apply (structured_lookup_complete no_count_world 1 []
           both_names_response empty_object_response
           [("displayName", VStr "Builder Man"); ("name", VStr "builderman")]
           []);
    try reflexivity.
  discriminate.
Defined.

(** X10. The profile page is requested exactly when the structured
    lookup is incomplete: when the name that the identity call returned
    is false as a condition (None, an empty string, 0, ...) or the
    follower-count call returned None. *)
Theorem fallback_iff_incomplete (W : World) (uid : Z) :
  exists u f tr1,
    _get_username_from_api W uid [] = (Ok u, [EGet (users_url uid)])
    /\ _get_followers_from_api W uid [EGet (users_url uid)] = (Ok f, tr1)
    /\ (In (EGet (profile_url uid)) (snd (get_user_followers W uid []))
        <-> truthy u = false \/ f = VNone).
Proof.
  destruct (lookup_trace W uid []) as (u & f & retried & Eu & Ef & E).
  cbn [app] in *. exists u, f, (api_requests uid retried).
  split; [exact Eu|]. split; [exact Ef|]. rewrite E.
  destruct (profile_url_apart uid) as [Hu Hf].
  assert (Hapi : ~ In (EGet (profile_url uid)) (api_requests uid retried)).
  { unfold api_requests. destruct retried; cbn [In]; intros H;
      decompose [or] H; try discriminate; try contradiction;
      match goal with
      | Heq : EGet _ = EGet _ |- _ => injection Heq as Heq; congruence
      end. }
  destruct (truthy u) eqn:Hu'; cbn [andb].
  - destruct f; cbn [is_none negb]; cbn [snd];
      try (split; [intros Hin; contradiction
                  | intros [Habs|Habs]; discriminate Habs]).
    destruct (scrape_trace W uid (api_requests uid retried)) as [qs Eq].
    rewrite Eq. split; [auto|]. intros _. apply in_or_app. right. left.
    reflexivity.
  - destruct (scrape_trace W uid (api_requests uid retried)) as [qs Eq].
    rewrite Eq. split; [auto|]. intros _. apply in_or_app. right. left.
    reflexivity.
Qed.

(** the fields of a result *)
Lemma lookup_fields W uid tr :
  exists r tr',
    get_user_followers W uid tr = (Ok r, tr')
    /\ user_id r = uid
    /\ (success r = true ->
        username r <> None /\ followers r <> None
        /\ timestamp r = Some (now W) /\ error r = None)
    /\ (success r = false ->
        followers r = None /\ timestamp r = None /\ error r <> None).
Proof.
  destruct (lookup_cases W uid tr) as (u & f & tr2 & _ & _ & E).
  destruct (truthy u && negb (is_none f)).
  - exists (api_result W uid u f), tr2. split; [exact E|].
    cbn. repeat split; try discriminate.
  - destruct (scrape_cases W uid tr2) as (r & tr3 & Er & _ & Hcases).
    exists r, tr3. split; [rewrite E; exact Er|].
    destruct Hcases as [(e & ->)|[->|(name & f' & -> & _ & _)]].
    + destruct e; cbn; repeat split; try discriminate.
      all: destruct (status =? 404); cbn; repeat split; discriminate.
    + cbn. repeat split; discriminate.
    + destruct f'; cbn; repeat split; discriminate.
Qed.

(** X11. Every result echoes the id that was asked for.  A successful
    result always carries a username, a follower count, the timestamp of
    the clock and no error; a failed result carries an error and never a
    follower count or a timestamp. *)
Theorem lookup_result_fields (W : World) (uid : Z) (tr : trace) :
  exists r tr',
    get_user_followers W uid tr = (Ok r, tr')
    /\ user_id r = uid
    /\ (success r = true ->
        username r <> None /\ followers r <> None
        /\ timestamp r = Some (now W) /\ error r = None)
    /\ (success r = false ->
        followers r = None /\ timestamp r = None /\ error r <> None).
Proof. apply lookup_fields. Qed.

(** ** The errors of the fallback *)



(** ** The web layer *)

Section WebFacts.

Variable W : World.
Variable str_of_exn : exn -> string.



End WebFacts.



Example get_followers_run :
  get_followers (api_world 12) no_text 1 []
  = (Ok (success_reply 1 (VStr "builderman") (VInt 12) "2024-01-01T00:00:00"),
     [EGet (users_url 1); EGet (followers_url 1)]).
Proof. vm_compute. reflexivity. Qed.




(** *** The decimal text of an integer *)

Module DecimalFacts.








End DecimalFacts.




Example query_route_negative :
  get_followers_query (api_world 12) no_text (Some (Num.str_of_int (-7))) []
  = (Ok invalid_id_reply, []).
Proof. vm_compute. reflexivity. Qed.

(** ** The matches of strategy 1 *)


